(** * casperfpga: the local PCIe transport ([transport_localpcie.py])

    A shallow embedding of [LocalPcieTransport]: target resolution
    ([getXdmaIdFromTarget]), the memory-mapped register window ([read],
    [blindwrite]) and bitstream upload ([_extract_bitstream],
    [upload_to_ram_and_program]), followed by the properties of the
    design document that concern them.

    Python integers are [Z]; [bytes] are [list byte]; [str] is [string]
    (ASCII text); a [dict] whose order shows is an association list
    ([Dict.t]), one whose order does not is a [gmap]; exceptions are values
    of [exn] carried by [result]; the methods that read or change [self]
    or the host are computations in the monad [M]. *)

From Stdlib Require Import ZArith Lia List String Ascii.
From Stdlib Require Import DecimalString DecimalPos.
From Stdlib Require Import Strings.Byte.
From stdpp Require Import base list list_numbers strings gmap.

Local Open Scope Z_scope.

(** ** Python values and built-ins *)

Module Py.

(** [PySlice_AdjustIndices] for a step of one: a negative index counts
    from the end, and both ends are clipped to [0, len]. *)
Definition adjust_index (len i : Z) : Z :=
  if i <? 0 then Z.max (i + len) 0 else Z.min i len.

Definition slicelength (len start stop : Z) : Z :=
  Z.max 0 (adjust_index len stop - adjust_index len start).

(** [b[start:stop]] on a byte string (or any sequence). *)
Definition slice {A} (l : list A) (start stop : Z) : list A :=
  let n := Z.of_nat (length l) in
  take (Z.to_nat (slicelength n start stop))
       (drop (Z.to_nat (adjust_index n start)) l).

(** [b[start:]] *)
Definition slice_from {A} (l : list A) (start : Z) : list A :=
  slice l start (Z.of_nat (length l)).

(** [x * n] for a one-byte string [x]; empty when [n <= 0]. *)
Definition bytes_mul (x : byte) (n : Z) : list byte := repeat x (Z.to_nat n).

(** [b.startswith(p)] *)
Fixpoint startswith (b p : list byte) {struct p} : bool :=
  match p, b with
  | [], _ => true
  | y :: p', x :: b' => Byte.eqb x y && startswith b' p'
  | _ :: _, [] => false
  end.

(** [b.find(sub)]: the lowest index at which [sub] occurs, or [-1]. *)
Fixpoint find_from (b sub : list byte) (i : Z) : Z :=
  if startswith b sub then i
  else match b with
       | [] => -1
       | _ :: b' => find_from b' sub (i + 1)
       end.

Definition find (b sub : list byte) : Z := find_from b sub 0.

(** [s.startswith(p)], [s.endswith(p)] and [s[n:]] on text. *)
Fixpoint str_startswith (s p : string) {struct p} : bool :=
  match p with
  | EmptyString => true
  | String b p' =>
      match s with
      | EmptyString => false
      | String a s' => Ascii.eqb a b && str_startswith s' p'
      end
  end.

Definition str_from (n : nat) (s : string) : string :=
  String.substring n (String.length s - n) s.

Definition str_endswith (s p : string) : bool :=
  (String.length p <=? String.length s)%nat
  && String.eqb (str_from (String.length s - String.length p) s) p.

(** [str(k)] for an integer: its decimal numeral. *)
Definition str_of_int (k : Z) : string := NilZero.string_of_int (Z.to_int k).

(** Whitespace as [int()] strips it from ASCII text: tab to carriage
    return (9 to 13), and space (32). *)
Definition is_space (c : ascii) : bool :=
  let n := nat_of_ascii c in
  ((9 <=? n) && (n <=? 13) || (n =? 32))%nat.

Definition is_digit (c : ascii) : bool :=
  let n := nat_of_ascii c in ((48 <=? n) && (n <=? 57))%nat.

Fixpoint lstrip (s : string) : string :=
  match s with
  | String c r => if is_space c then lstrip r else s
  | EmptyString => EmptyString
  end.

Fixpoint rstrip (s : string) : string :=
  match s with
  | String c r =>
      match rstrip r with
      | EmptyString => if is_space c then EmptyString else String c EmptyString
      | r' => String c r'
      end
  | EmptyString => EmptyString
  end.

Definition strip (s : string) : string := rstrip (lstrip s).

(** The digits of a literal, with the grouping underscores dropped: an
    underscore is accepted only between two digits. [prev] tells whether
    the previous character was a digit. *)
Fixpoint ungroup (prev : bool) (s : string) : option string :=
  match s with
  | EmptyString => if prev then Some EmptyString else None
  | String c r =>
      if is_digit c then option_map (String c) (ungroup true r)
      else if Ascii.eqb c "_" then (if prev then ungroup false r else None)
      else None
  end.

Definition digits_value (s : string) : option Z :=
  match ungroup false s with
  | Some d => option_map Z.of_uint (NilZero.uint_of_string d)
  | None => None
  end.

(** [int(s)] in base ten: surrounding whitespace, one optional sign, then
    digits. [None] stands for the [ValueError] it raises. *)
Definition int_of_str (s : string) : option Z :=
  match strip s with
  | EmptyString => None
  | String c r =>
      if Ascii.eqb c "-" then option_map Z.opp (digits_value r)
      else if Ascii.eqb c "+" then digits_value r
      else digits_value (String c r)
  end.

End Py.

(** ** Exceptions *)

(** What [getXdmaIdFromTarget] accepts: a string or an integer. *)
Inductive target :=
| TargetStr (s : string)
| TargetInt (k : Z).

(** The text of a [RuntimeError]: a fixed string, or one of the two format
    strings of this module together with the values formatted into it. *)
Inductive message :=
| Text (s : string)
| TargetNotRecognised (tgt : target) (valid : list (string * string))
| TemplateMismatch (programmed : option string) (supplied : option string).

Inductive exn :=
| AssertionError (msg : string)
| ValueError (msg : string)
| IndexError (msg : string)
| OSError (msg : string)
| ZlibError (msg : string)
| RuntimeError (msg : message)
| TypeError (msg : string)
| AttributeError (attribute : string).

Inductive result (A : Type) :=
| Return (a : A)
| Raise (e : exn).
Arguments Return {A} a.
Arguments Raise {A} e.

(** ** Dictionaries that keep insertion order *)

Module Dict.

Definition t (V : Type) : Type := list (string * V).

Fixpoint get {V} (d : t V) (k : string) : option V :=
  match d with
  | [] => None
  | (k', v) :: d' => if String.eqb k' k then Some v else get d' k
  end.

(** [d[k] = v]: a key that is present keeps its place. *)
Fixpoint set {V} (d : t V) (k : string) (v : V) : t V :=
  match d with
  | [] => [(k, v)]
  | (k', v') :: d' =>
      if String.eqb k' k then (k', v) :: d' else (k', v') :: set d' k v
  end.

Definition keys {V} (d : t V) : list string := map fst d.
Definition values {V} (d : t V) : list V := map snd d.
Definition items {V} (d : t V) : list (string * V) := d.

End Dict.

(** [k in d.values()] for integer values. *)
Definition in_values (k : Z) (d : Dict.t Z) : bool :=
  existsb (Z.eqb k) (Dict.values d).

(** ** DeviceResolver: [getXdmaIdFromTarget] *)

Section Resolver.

(** What the scan of [/sys/bus/pci/drivers/xdma/*/xdma/xdma*_user] finds
    on the host: for each path, in the order of the glob, the groups
    [pci_id] and [int(xdma_id)] that the pattern captures. *)
Variable xdma_dev_matches : list (string * Z).

(** The loop of [get_pcie_xdma_map] (lines 128-132). *)
Definition get_pcie_xdma_map : Dict.t Z :=
  fold_left (fun ret '(pci_id, xdma_id) => Dict.set ret pci_id xdma_id)
            xdma_dev_matches [].

Definition invalid_literal : exn :=
  ValueError "invalid literal for int() with base 10".

(** [int(target)] *)
Definition int_of_target (tgt : target) : result Z :=
  match tgt with
  | TargetInt k => Return k
  | TargetStr s =>
      match Py.int_of_str s with
      | Some k => Return k
      | None => Raise invalid_literal
      end
  end.

(** The dictionary formatted into the error message:
    [{f"pcie{pcie}": f"xdma{xdma}" for pcie, xdma in d.items()}]. *)
Definition valid_identifiers (d : Dict.t Z) : list (string * string) :=
  map (fun '(pcie, xdma) => ("pcie" +:+ pcie, "xdma" +:+ Py.str_of_int xdma))
      (Dict.items d).

(** The tail of the function, from the [try] on (lines 162-176). *)
Definition resolve_bare (tgt : target) (d : Dict.t Z) : result Z :=
  let fail := Raise (RuntimeError (TargetNotRecognised tgt (valid_identifiers d))) in
  match int_of_target tgt with
  | Return k => if in_values k d then Return k else fail
  | Raise _ => fail
  end.

(** The ["xdma"] branch (lines 156-160); the conversion is not guarded. *)
Definition resolve_xdma (s : string) (d : Dict.t Z) : result Z :=
  if Py.str_startswith s "xdma" then
    match int_of_target (TargetStr (Py.str_from 4 s)) with
    | Return k => if in_values k d then Return k else resolve_bare (TargetStr s) d
    | Raise e => Raise e
    end
  else resolve_bare (TargetStr s) d.

(** The dictionary a call consults (lines 139-146): the supplied one, or
    the host's enumeration when none is supplied. *)
Definition pcie_xdma_dict (pcie_xdma_map : option (Dict.t Z)) : Dict.t Z :=
  match pcie_xdma_map with
  | None => get_pcie_xdma_map
  | Some m => m
  end.

Definition getXdmaIdFromTarget (tgt : target) (pcie_xdma_map : option (Dict.t Z))
  : result Z :=
  let d := pcie_xdma_dict pcie_xdma_map in
  match tgt with
  | TargetStr s =>
      if Py.str_startswith s "pcie" then
        let pci_id := Py.str_from 4 s in
        match Dict.get d pci_id with
        | Some k => Return k
        | None => resolve_xdma s d
        end
      else resolve_xdma s d
  | TargetInt _ => resolve_bare tgt d
  end.

End Resolver.

(** ** DeviceResolver: the pattern of the scan

    [re.match(pcie_xdma_regex, fp)] as the backtracking search it is: each
    piece of the pattern is given the text that is left and a continuation
    for what follows it, and tries its alternatives in the order of [re];
    the first that lets the continuation succeed is the match. *)

Module Re.

(** A literal. *)
Fixpoint lit {R} (p s : string) (k : string -> option R) {struct p} : option R :=
  match p with
  | EmptyString => k s
  | String c p' =>
      match s with
      | String c' s' => if Ascii.eqb c c' then lit p' s' k else None
      | EmptyString => None
      end
  end.

(** [\d+], greedy: the longest run of digits first, then shorter ones. The
    continuation gets the text consumed and the text left. *)
Fixpoint digits_plus {R} (s : string) (k : string -> string -> option R)
  : option R :=
  match s with
  | String c s' =>
      if Py.is_digit c then
        match digits_plus s' (fun cap rest => k (String c cap) rest) with
        | Some r => Some r
        | None => k (String c EmptyString) s'
        end
      else None
  | EmptyString => None
  end.

(** [.*?], lazy: nothing first, then one character more at a time; [.]
    is any character but the newline. *)
Fixpoint any_lazy {R} (s : string) (k : string -> string -> option R)
  : option R :=
  match s with
  | EmptyString => k EmptyString EmptyString
  | String c s' =>
      match k EmptyString s with
      | Some r => Some r
      | None =>
          if Ascii.eqb c "010" then None
          else any_lazy s' (fun cap rest => k (String c cap) rest)
      end
  end.

End Re.

(** [/sys/bus/pci/drivers/xdma/\d+:(?P<pci_id>.*?):.*?/xdma/xdma(?P<xdma_id>\d+)_user],
    matched at the start of [fp]: the two named groups, or [None] where
    [re.match] returns [None]. *)
Definition pcie_xdma_regex (fp : string) : option (string * string) :=
  Re.lit "/sys/bus/pci/drivers/xdma/" fp (fun r =>
  Re.digits_plus r (fun _ r =>
  Re.lit ":" r (fun r =>
  Re.any_lazy r (fun pci_id r =>
  Re.lit ":" r (fun r =>
  Re.any_lazy r (fun _ r =>
  Re.lit "/xdma/xdma" r (fun r =>
  Re.digits_plus r (fun xdma_id r =>
  Re.lit "_user" r (fun _ =>
  Some (pci_id, xdma_id)))))))))).

(** What the body of the loop of [get_pcie_xdma_map] stores for the path
    [fp] (lines 130-131): the key [match.group("pci_id")] and the value
    [int(match.group("xdma_id"))]. [None] where the body raises: on a path
    that the pattern does not match, [match] is [None] and has no
    [group]. *)
Definition path_groups (fp : string) : option (string * Z) :=
  match pcie_xdma_regex fp with
  | Some (pci_id, xdma_id) =>
      match Py.int_of_str xdma_id with
      | Some k => Some (pci_id, k)
      | None => None
      end
  | None => None
  end.

(** ** The session and its host *)

Definition AXIL_PCI_ADDR_TRANSLATION : Z := 0.
Definition MAP_SIZE : Z := 8 * 1024 * 1024.

(** The mapping [axil_mm]: [MAP_SIZE] bytes of device memory, read at the
    offsets [0 <= k < MAP_SIZE] only. *)
Definition mmap : Type := Z -> byte.

(** [mm[start:stop]]: a copy of the bytes of the (clipped) range. *)
Definition mmap_getslice (mm : mmap) (start stop : Z) : list byte :=
  mm <$> seqZ (Py.adjust_index MAP_SIZE start) (Py.slicelength MAP_SIZE start stop).

(** Copying [n] bytes of [value] to offset [i] of the mapping. *)
Definition store (mm : mmap) (i n : Z) (value : list byte) : mmap :=
  fun k => if (i <=? k) && (k <? i + n)
           then nth (Z.to_nat (k - i)) value x00
           else mm k.

(** [mm[start:stop] = value]: the value must be exactly as long as the
    (clipped) range, else [IndexError] and nothing is stored. *)
Definition mmap_setslice (mm : mmap) (start stop : Z) (value : list byte)
  : result mmap :=
  let i := Py.adjust_index MAP_SIZE start in
  let n := Py.slicelength MAP_SIZE start stop in
  if Z.of_nat (length value) =? n then Return (store mm i n value)
  else Raise (IndexError "mmap slice assignment is wrong size").

(** The attributes of [self] that the operations below use.
    [memory_devices] gives each named device its address. *)
Record LocalPcieTransport := {
  instance_id : Z;
  _axil_dev : string;
  _axid_dev : string;
  axil_mm : mmap;
  fpg_template : option string;
  memory_devices : gmap string Z;
}.

(** The host side: the files that can be opened for reading, and what has
    been written to character devices so far (oldest first). *)
Record host := {
  files : gmap string (list byte);
  streamed : list (string * list byte);
}.

Definition world : Type := LocalPcieTransport * host.

(** Computations that read and update the world and may raise. The world
    is returned in both cases: what was done before a [Raise] stays done. *)
Definition M (A : Type) : Type := world -> result A * world.

Definition ret {A} (a : A) : M A := fun w => (Return a, w).
Definition raise {A} (e : exn) : M A := fun w => (Raise e, w).
Definition bind {A B} (c : M A) (k : A -> M B) : M B :=
  fun w => match c w with
           | (Return a, w') => k a w'
           | (Raise e, w') => (Raise e, w')
           end.
Definition lift {A} (r : result A) : M A := fun w => (r, w).
Definition gets {A} (f : LocalPcieTransport -> A) : M A :=
  fun w => (Return (f (fst w)), w).

Notation "x <- c ;; k" := (bind c (fun x => k))
  (at level 100, c at next level, right associativity).
Notation "c ;;; k" := (bind c (fun _ => k))
  (at level 100, right associativity).

(** [assert cond, msg] *)
Definition py_assert (cond : bool) (msg : string) : M unit :=
  if cond then ret tt else raise (AssertionError msg).

Definition set_axil_mm (mm : mmap) : M unit :=
  fun '(self, h) =>
    (Return tt,
     ({| instance_id := instance_id self; _axil_dev := _axil_dev self;
         _axid_dev := _axid_dev self; axil_mm := mm;
         fpg_template := fpg_template self;
         memory_devices := memory_devices self |}, h)).

Definition set_fpg_template (t : option string) : M unit :=
  fun '(self, h) =>
    (Return tt,
     ({| instance_id := instance_id self; _axil_dev := _axil_dev self;
         _axid_dev := _axid_dev self; axil_mm := axil_mm self;
         fpg_template := t;
         memory_devices := memory_devices self |}, h)).

(** [open(filename, "rb").read()] *)
Definition read_file (filename : string) : M (list byte) :=
  fun '(self, h) =>
    match files h !! filename with
    | Some b => (Return b, (self, h))
    | None => (Raise (OSError "No such file or directory"), (self, h))
    end.

(** [open(dev, "wb").write(data)] on a character device that the driver
    exposes and that takes the data whole. *)
Definition write_device (dev : string) (data : list byte) : M unit :=
  fun '(self, h) =>
    (Return tt,
     (self, {| files := files h; streamed := streamed h ++ [(dev, data)] |})).

(** ** RegisterWindow: [read] and [blindwrite] *)

(** A device is named, or given by its absolute address. *)
Inductive device :=
| DevName (name : string)
| DevAddr (address : Z).

(** ["%s" % device_name] *)
Definition device_str (device_name : device) : string :=
  match device_name with
  | DevName name => name
  | DevAddr a => Py.str_of_int a
  end.

Definition _get_device_address (device_name : device) : M Z :=
  let errmsg := "Could not find device: " +:+ device_str device_name in
  devs <- gets memory_devices ;;
  match device_name with
  | DevName name =>
      match devs !! name with
      | Some address => ret address
      | None => raise (ValueError errmsg)
      end
  | DevAddr a =>
      if (0 <=? a) && (a <? 2 ^ 32) then ret a
      else raise (ValueError errmsg)
  end.

Definition read (device_name : device) (size : Z) (offset : Z) : M (list byte) :=
  a <- _get_device_address device_name ;;
  let addr := a - AXIL_PCI_ADDR_TRANSLATION + offset in
  mm <- gets axil_mm ;;
  ret (mmap_getslice mm addr (addr + size)).

(** What a caller may pass as [data]: values with a length (only [Bytes]
    has type [bytes]) and values without one, an integer or [None]. *)
Inductive payload :=
| Bytes (b : list byte)
| Bytearray (b : list byte)
| Str (s : string)
| IntValue (k : Z)
| NoneValue.

(** [len(data)]: a value without a length raises [TypeError]. *)
Definition len (data : payload) : result Z :=
  match data with
  | Bytes b | Bytearray b => Return (Z.of_nat (length b))
  | Str s => Return (Z.of_nat (String.length s))
  | IntValue _ => Raise (TypeError "object of type 'int' has no len()")
  | NoneValue => Raise (TypeError "object of type 'NoneType' has no len()")
  end.

Definition is_bytes (data : payload) : bool :=
  match data with Bytes _ => true | _ => false end.

Definition as_bytes (data : payload) : list byte :=
  match data with Bytes b | Bytearray b => b | _ => [] end.

Definition block_size : Z := 4096.

(** [self.axil_mm[start:stop] = value] *)
Definition assign_axil_mm (start stop : Z) (value : list byte) : M unit :=
  mm <- gets axil_mm ;;
  mm' <- lift (mmap_setslice mm start stop value) ;;
  set_axil_mm mm'.

(** The loop of [blindwrite] (lines 234-240): [iters] iterations are left
    and [written] bytes have been stored. *)
Fixpoint write_chunks (iters : nat) (addr size : Z) (data : list byte)
  (written : Z) : M unit :=
  match iters with
  | O => ret tt
  | S iters' =>
      let n_bytes := Z.min (size - written) block_size in
      (if 0 <? n_bytes then
         assign_axil_mm (addr + written) (addr + written + n_bytes)
           (Py.slice data written (written + n_bytes))
       else ret tt) ;;;
      write_chunks iters' addr size data (written + n_bytes)
  end.

Definition blindwrite (device_name : device) (data : payload) (offset : Z)
  : M unit :=
  size <- lift (len data) ;;
  py_assert (is_bytes data) "Must supply binary data" ;;;
  py_assert (size mod 4 =? 0) "Must write 32-bit-bounded words" ;;;
  py_assert (offset mod 4 =? 0) "Must write 32-bit-bounded words" ;;;
  a <- _get_device_address device_name ;;
  let addr := a - AXIL_PCI_ADDR_TRANSLATION + offset in
  write_chunks (Z.to_nat (size / block_size + 1)) addr size (as_bytes data) 0.

(** The write the chunked loop stands for: one slice assignment of the
    whole payload at the translated address. *)
Definition single_write (device_name : device) (data : list byte) (offset : Z)
  : M unit :=
  a <- _get_device_address device_name ;;
  let addr := a - AXIL_PCI_ADDR_TRANSLATION + offset in
  assign_axil_mm addr (addr + Z.of_nat (length data)) data.

(** ** BitstreamExtractor and upload *)

(** [b"\n?quit\n"], the gzip signature, and the padding byte [b"0"]. *)
Definition sentinel : list byte := [x0a; x3f; x71; x75; x69; x74; x0a].
Definition gzip_magic : list byte := [x1f; x8b; x08].
Definition pad_byte : byte := x30.

(** Lines 94-96 of [_extract_bitstream], as functions of the file's bytes. *)
Definition header_offset (fpg : list byte) : Z := Py.find fpg sentinel + 7.

Definition header (fpg : list byte) : list byte :=
  Py.slice fpg 0 (header_offset fpg)
  ++ Py.bytes_mul pad_byte (1024 - header_offset fpg mod 1024).

Definition prog (fpg : list byte) : list byte :=
  Py.slice_from fpg (header_offset fpg)
  ++ Py.bytes_mul pad_byte
       (1024 - (Z.of_nat (length fpg) - header_offset fpg) mod 1024).

(** The parsed header of an image, [parse_fpg(...)[0]]: sections in the
    order they were declared, each a dictionary of its own. *)
Definition fpg_header : Type := Dict.t (Dict.t string).

(** The expression under [try] in [_parse_template_meta]; [None] is what
    the [except] clause returns when a subscript fails. *)
Definition first_section_template (hdr : fpg_header) : option string :=
  match Dict.keys hdr with
  | [] => None
  | k :: _ =>
      match Dict.get hdr k with
      | Some section => Dict.get section "pr_template"
      | None => None
      end
  end.

Section Upload.

(** Code outside this module: [utils.parse_fpg] (its first component),
    [zlib.decompress(_, 16 + zlib.MAX_WBITS)] and [hashlib.md5]. The
    first two may raise. *)
Variable parse_fpg : string -> result fpg_header.
Variable zlib_decompress : list byte -> result (list byte).
Variable md5_hexdigest : list byte -> string.

Definition _parse_template_meta (fpgfile : string) : M (option string) :=
  hdr <- lift (parse_fpg fpgfile) ;;
  ret (first_section_template hdr).

Definition _extract_bitstream (filename : string)
  : M (list byte * list byte * string) :=
  fpg <- read_file filename ;;
  let header := header fpg in
  let prog := prog fpg in
  prog <- (if Py.startswith prog gzip_magic
           then lift (zlib_decompress prog) else ret prog) ;;
  ret (header, prog, md5_hexdigest fpg).

Definition option_string_eqb (a b : option string) : bool :=
  match a, b with
  | Some x, Some y => String.eqb x y
  | None, None => true
  | _, _ => false
  end.

Definition upload_to_ram_and_program (filename : string) : M bool :=
  py_assert (Py.str_endswith filename ".fpg") "" ;;;
  template <- _parse_template_meta filename ;;
  current <- gets fpg_template ;;
  (match current with
   | Some _ =>
       if negb (option_string_eqb current template)
       then raise (RuntimeError (TemplateMismatch current template))
       else ret tt
   | None => ret tt
   end) ;;;
  extracted <- _extract_bitstream filename ;;
  let '(header, bitstream, md5) := extracted in
  dev <- gets _axid_dev ;;
  write_device dev bitstream ;;;
  current <- gets fpg_template ;;
  (match current, template with
   | None, Some _ => set_fpg_template template
   | _, _ => ret tt
   end) ;;;
  ret true.

End Upload.

(** ** The rest of the class: liveness probe and construction *)

(** The attributes of [self] that [is_connected] falls back on and that
    this class never sets: [self.timeout] and [self.retries]. [None] where
    the instance has no such attribute. *)
Record fallbacks := {
  attr_timeout : option Z;
  attr_retries : option Z;
}.

(** [arg] when it is not [None], else [self.<name>]: an [AttributeError]
    where the instance has no attribute of that name. *)
Definition or_attribute (arg : option Z) (name : string) (attr : option Z)
  : M Z :=
  match arg with
  | Some v => ret v
  | None =>
      match attr with
      | Some v => ret v
      | None => raise (AttributeError name)
      end
  end.

(** [is_connected]: the two defaults are looked up first, outside the
    [try]; then a read of four bytes at the translation base under the
    [try]: whatever that raises becomes [False]. *)
Definition is_connected (attrs : fallbacks) (timeout retries : option Z)
  : M bool :=
  timeout <- or_attribute timeout "timeout" (attr_timeout attrs) ;;
  retries <- or_attribute retries "retries" (attr_retries attrs) ;;
  fun w => match read (DevAddr AXIL_PCI_ADDR_TRANSLATION) 4 0 w with
           | (Return _, w') => (Return true, w')
           | (Raise _, w') => (Return false, w')
           end.

Definition is_running : M bool := ret true.

(** ["/dev/xdma%d_user" % instance_id] and ["/dev/xdma%d_h2c_1" % instance_id] *)
Definition axil_dev_path (instance_id : Z) : string :=
  "/dev/xdma" +:+ Py.str_of_int instance_id +:+ "_user".

Definition axid_dev_path (instance_id : Z) : string :=
  "/dev/xdma" +:+ Py.str_of_int instance_id +:+ "_h2c_1".

(** The keyword arguments [__init__] looks at: whether [parent_fpga] is
    among them and whether the object given has a [logger], [host] and
    [fpgfile]. *)
Record kwargs := {
  kw_parent_fpga : bool;
  kw_parent_has_logger : bool;
  kw_host : option target;
  kw_fpgfile : option string;
}.

(** What [Transport.__init__] has set on the instance, as far as this
    class reads it: [memory_devices], and whether there is a [host]. *)
Record inherited := {
  inh_memory_devices : gmap string Z;
  inh_has_host : bool;
}.

Section Construction.

Variable xdma_dev_matches : list (string * Z).
Variable parse_fpg : string -> result fpg_header.

(** [Transport.__init__(self, **kwargs)], the constructor of the base
    class, which is given all the keyword arguments and may raise. *)
Variable Transport__init__ : kwargs -> result inherited.

(** [open(dev, "r+b", buffering=0)] followed by [mmap(...)] over it: the
    window of the device node, or the [OSError] of a node that cannot be
    opened. *)
Variable open_window : string -> result mmap.

Definition __init__ (kw : kwargs) (h : host) : result LocalPcieTransport :=
  match Transport__init__ kw with
  | Raise e => Raise e
  | Return base =>
  if kw_parent_fpga kw then
    if kw_parent_has_logger kw then
    match getXdmaIdFromTarget xdma_dev_matches
            (default (TargetInt 0) (kw_host kw)) None with
    | Raise e => Raise e
    | Return id =>
        if inh_has_host base then
        match open_window (axil_dev_path id) with
        | Raise e => Raise e
        | Return mm =>
            let self (t : option string) :=
              {| instance_id := id;
                 _axil_dev := axil_dev_path id;
                 _axid_dev := axid_dev_path id;
                 axil_mm := mm;
                 fpg_template := t;
                 memory_devices := inh_memory_devices base |} in
            match kw_fpgfile kw with
            | None => Return (self None)
            | Some fpgfile_path =>
                match fst (_parse_template_meta parse_fpg fpgfile_path
                             (self None, h)) with
                | Return t => Return (self t)
                | Raise e => Raise e
                end
            end
        end
        else Raise (AttributeError "host")
    end
    else Raise (AttributeError "logger")
  else
    Raise (RuntimeError
             (Text "parent_fpga argument not supplied when creating skarab"))
  end.

End Construction.

(** ** Notions used in the statements *)

(** The world with the mapping's contents replaced. *)
Definition with_mm (w : world) (mm : mmap) : world :=
  ({| instance_id := instance_id (fst w); _axil_dev := _axil_dev (fst w);
      _axid_dev := _axid_dev (fst w); axil_mm := mm;
      fpg_template := fpg_template (fst w);
      memory_devices := memory_devices (fst w) |}, snd w).

(** The session with its template replaced. *)
Definition with_template (self : LocalPcieTransport) (t : option string)
  : LocalPcieTransport :=
  {| instance_id := instance_id self; _axil_dev := _axil_dev self;
     _axid_dev := _axid_dev self; axil_mm := axil_mm self;
     fpg_template := t;
     memory_devices := memory_devices self |}.

(** The session after an upload of an image with [template]: a session
    without a template takes the image's, if it has one. *)
Definition adopting (self : LocalPcieTransport) (template : option string)
  : LocalPcieTransport :=
  match fpg_template self, template with
  | None, Some _ => with_template self template
  | _, _ => self
  end.

(** Two mappings with the same contents. *)
Definition same_bytes (mm mm' : mmap) : Prop := forall k, mm k = mm' k.

(** Two worlds that differ at most in how the mapping is represented:
    every byte of the mapping and everything else is the same. *)
Definition same_state (w w' : world) : Prop :=
  same_bytes (axil_mm (fst w)) (axil_mm (fst w'))
  /\ instance_id (fst w) = instance_id (fst w')
  /\ _axil_dev (fst w) = _axil_dev (fst w')
  /\ _axid_dev (fst w) = _axid_dev (fst w')
  /\ fpg_template (fst w) = fpg_template (fst w')
  /\ memory_devices (fst w) = memory_devices (fst w')
  /\ snd w = snd w'.

(** [ceil(a / b)] for a positive [b]. *)
Definition ceil_div (a b : Z) : Z := (a + b - 1) / b.

(** [sub] does not occur in [b] at any index below [n]. *)
Definition absent_before (n : nat) (b sub : list byte) : Prop :=
  forall i, (i < n)%nat -> Py.startswith (drop i b) sub = false.

(** [sub] does not occur in [b] at all. *)
Definition absent (b sub : list byte) : Prop :=
  forall i, Py.startswith (drop i b) sub = false.

(** A parsed header that yields no template: it has no section, or its
    first section has no ["pr_template"] key. *)
Definition no_template (hdr : fpg_header) : Prop :=
  hdr = []
  \/ exists k section rest,
       hdr = (k, section) :: rest /\ Dict.get section "pr_template" = None.

(** The host after [data] has been written to the device [dev]. *)
Definition after_streaming (h : host) (dev : string) (data : list byte) : host :=
  {| files := files h; streamed := streamed h ++ [(dev, data)] |}.

(** No address can be found for the device: its name is not in the
    table, or its number is not a 32-bit address. *)
Definition unresolvable (self : LocalPcieTransport) (dev : device) : Prop :=
  match dev with
  | DevName name => memory_devices self !! name = None
  | DevAddr a => a < 0 \/ 2 ^ 32 <= a
  end.

(** The character [c] does not occur in [s]. *)
Fixpoint lacks (c : ascii) (s : string) : bool :=
  match s with
  | EmptyString => true
  | String c' s' => negb (Ascii.eqb c c') && lacks c s'
  end.

(** A run of decimal digits, as written for the numeral [u]; leading
    zeros are digits of [u]. *)
Definition digits (u : Decimal.uint) : string := NilEmpty.string_of_uint u.

(** The path of the control node that sysfs shows for the instance [n] of
    the device whose directory is named [dom:bus:rest]. *)
Definition sysfs_path (dom bus rest n : string) : string :=
  "/sys/bus/pci/drivers/xdma/" +:+ dom +:+ ":" +:+ bus +:+ ":" +:+ rest
    +:+ "/xdma/xdma" +:+ n +:+ "_user".

(** The message of the [ValueError] of [_get_device_address]. *)
Definition not_found (dev : device) : exn :=
  ValueError ("Could not find device: " +:+ device_str dev).

(** The [IndexError] of a slice assignment of the wrong size. *)
Definition wrong_size : exn := IndexError "mmap slice assignment is wrong size".

(** ** Worked inputs *)

(** The mapping of the design document's example: one card. *)
Definition example_map : Dict.t Z := [("0000:01:00.0"%string, 0)].

(** A session on card 0 with a zeroed window, no template and one named
    register, on a host that has streamed nothing yet. *)
Definition blank : mmap := fun _ => x00.

Definition card0 : LocalPcieTransport :=
  {| instance_id := 0;
     _axil_dev := "/dev/xdma0_user";
     _axid_dev := "/dev/xdma0_h2c_1";
     axil_mm := blank;
     fpg_template := None;
     memory_devices := {[ "sys_scratchpad"%string := 4096 ]} |}.

Definition quiet_host : host := {| files := ∅; streamed := [] |}.

Definition world0 : world := (card0, quiet_host).

(** Stand-ins for the code outside this module, used where it plays no
    part: a zlib that is never given gzip data and refuses what it gets, a
    digest that is not looked at, and three metadata parsers: one that
    finds a template, one that finds a section without one, and one that
    refuses the file. *)
Definition zlib_rejects : list byte -> result (list byte) :=
  fun _ => Raise (ZlibError "incorrect header check").

Definition no_digest : list byte -> string := fun _ => EmptyString.

Definition tagged_parser (tag : string) : string -> result fpg_header :=
  fun _ => Return [("77777"%string, [("pr_template"%string, tag)])].

Definition untagged_parser : string -> result fpg_header :=
  fun _ => Return [("77777"%string, [("builddate"%string, "2020"%string)])].

Definition failing_parser : string -> result fpg_header :=
  fun _ => Raise (RuntimeError (Text "does not look like an fpg file we can parse")).

(** A host whose only file is [image.fpg]. *)
Definition image_host (fpg : list byte) : host :=
  {| files := {[ "image.fpg"%string := fpg ]}; streamed := [] |}.

(** [card0] after an image templated by [T] was recorded. *)
Definition locked_card (T : string) : LocalPcieTransport :=
  with_template card0 (Some T).

(** [b"#!"], the sentinel, and four bytes of payload. *)
Definition small_image : list byte :=
  ([x23; x21] ++ sentinel) ++ [x01; x02; x03; x04].

(** Keyword arguments with a [parent_fpga]. *)
Definition with_parent (host : option target) (fpgfile : option string) : kwargs :=
  {| kw_parent_fpga := true; kw_parent_has_logger := true;
     kw_host := host; kw_fpgfile := fpgfile |}.

(** A base class that sets a [host] and the one register of [card0]. *)
Definition base_of_card0 : kwargs -> result inherited :=
  fun _ => Return {| inh_memory_devices := {[ "sys_scratchpad"%string := 4096 ]};
                     inh_has_host := true |}.

(** A host on which every control node opens, onto a zeroed window. *)
Definition opens_blank : string -> result mmap := fun _ => Return blank.

(** A metadata parser for two images: [a.fpg] is templated by [au50], any
    other file by [vcu118]. *)
Definition two_image_parser : string -> result fpg_header :=
  fun f => if String.eqb f "a.fpg" then tagged_parser "au50" f
           else tagged_parser "vcu118" f.

(** [b"hello world"] *)
Definition hello_world : list byte :=
  [x68; x65; x6c; x6c; x6f; x20; x77; x6f; x72; x6c; x64].

(** * Properties *)

(** ** Decimal numerals: [int(str(k)) = k] *)

Section Numerals.

Lemma ungroup_digits (u : Decimal.uint) :
  Py.ungroup true (NilEmpty.string_of_uint u) = Some (NilEmpty.string_of_uint u).
Proof. induction u; simpl; rewrite ?IHu; reflexivity. Qed.

Lemma ungroup_numeral (u : Decimal.uint) :
  u <> Decimal.Nil ->
  Py.ungroup false (NilEmpty.string_of_uint u) = Some (NilEmpty.string_of_uint u).
Proof.
  destruct u; intros Hu; try congruence; simpl; rewrite ungroup_digits; reflexivity.
Qed.

Lemma rstrip_digits (u : Decimal.uint) :
  Py.rstrip (NilEmpty.string_of_uint u) = NilEmpty.string_of_uint u.
Proof.
  induction u; simpl; rewrite ?IHu;
    try destruct (NilEmpty.string_of_uint u); reflexivity.
Qed.

Lemma strip_numeral (u : Decimal.uint) :
  u <> Decimal.Nil ->
  Py.strip (NilEmpty.string_of_uint u) = NilEmpty.string_of_uint u.
Proof.
  intros Hu. unfold Py.strip.
  replace (Py.lstrip (NilEmpty.string_of_uint u)) with (NilEmpty.string_of_uint u)
    by (destruct u; try congruence; reflexivity).
  apply rstrip_digits.
Qed.

Lemma digits_value_numeral (u : Decimal.uint) :
  u <> Decimal.Nil ->
  Py.digits_value (NilEmpty.string_of_uint u) = Some (Z.of_uint u).
Proof.
  intros Hu. unfold Py.digits_value. rewrite ungroup_numeral by assumption.
  pose proof (NilZero.usu u Hu) as E.
  replace (NilZero.string_of_uint u) with (NilEmpty.string_of_uint u) in E
    by (destruct u; try congruence; reflexivity).
  rewrite E. reflexivity.
Qed.

Lemma of_uint_to_uint (p : positive) : Z.of_uint (Pos.to_uint p) = Z.pos p.
Proof. unfold Z.of_uint. rewrite DecimalPos.Unsigned.of_to. reflexivity. Qed.

Lemma to_uint_nonnil (p : positive) : Pos.to_uint p <> Decimal.Nil.
Proof.
  intros E. pose proof (of_uint_to_uint p) as H. rewrite E in H. discriminate H.
Qed.

Lemma str_of_int_pos (p : positive) :
  Py.str_of_int (Z.pos p) = NilEmpty.string_of_uint (Pos.to_uint p).
Proof.
  unfold Py.str_of_int. simpl. pose proof (to_uint_nonnil p).
  destruct (Pos.to_uint p); try congruence; reflexivity.
Qed.

Lemma str_of_int_neg (p : positive) :
  Py.str_of_int (Z.neg p) = String "-" (NilEmpty.string_of_uint (Pos.to_uint p)).
Proof.
  unfold Py.str_of_int. simpl. pose proof (to_uint_nonnil p).
  destruct (Pos.to_uint p); try congruence; reflexivity.
Qed.

(** Parsing the decimal numeral of an integer gives the integer back. *)
Lemma int_of_str_of_int (k : Z) : Py.int_of_str (Py.str_of_int k) = Some k.
Proof.
  destruct k as [|p|p].
  - reflexivity.
  - rewrite str_of_int_pos. pose proof (to_uint_nonnil p) as Hu.
    unfold Py.int_of_str. rewrite strip_numeral by assumption.
    pose proof (digits_value_numeral _ Hu) as D. rewrite of_uint_to_uint in D.
    destruct (Pos.to_uint p); try congruence; simpl NilEmpty.string_of_uint in *;
      cbv iota beta; exact D.
  - rewrite str_of_int_neg. pose proof (to_uint_nonnil p) as Hu.
    unfold Py.int_of_str.
    assert (S : Py.strip (String "-" (NilEmpty.string_of_uint (Pos.to_uint p)))
                = String "-" (NilEmpty.string_of_uint (Pos.to_uint p))).
    { unfold Py.strip. simpl. rewrite rstrip_digits.
      destruct (NilEmpty.string_of_uint (Pos.to_uint p)); reflexivity. }
    rewrite S. simpl. rewrite digits_value_numeral by assumption.
    rewrite of_uint_to_uint. reflexivity.
Qed.

End Numerals.

(** ** DeviceResolver *)

Section ResolverFacts.

Variable xdma_dev_matches : list (string * Z).

Lemma substring_all (s : string) : String.substring 0 (String.length s) s = s.
Proof. induction s; simpl; [reflexivity | now rewrite IHs]. Qed.

Lemma str_from_pcie (s : string) : Py.str_from 4 ("pcie" +:+ s) = s.
Proof. unfold Py.str_from. simpl. rewrite Nat.sub_0_r. apply substring_all. Qed.

Lemma str_from_xdma (s : string) : Py.str_from 4 ("xdma" +:+ s) = s.
Proof. unfold Py.str_from. simpl. rewrite Nat.sub_0_r. apply substring_all. Qed.

Lemma get_set_same {V} (d : Dict.t V) (k : string) (v : V) :
  Dict.get (Dict.set d k v) k = Some v.
Proof.
  induction d as [|[k' v'] d IH]; simpl.
  - now rewrite String.eqb_refl.
  - destruct (String.eqb k' k) eqn:E; simpl; rewrite E; [reflexivity | exact IH].
Qed.

Lemma get_set_other {V} (d : Dict.t V) (k p : string) (v : V) :
  String.eqb k p = false ->
  Dict.get (Dict.set d k v) p = Dict.get d p.
Proof.
  intros Hkp. induction d as [|[k' v'] d IH]; simpl.
  - now rewrite Hkp.
  - destruct (String.eqb k' k) eqn:E; simpl.
    + apply String.eqb_eq in E. subst k'. now rewrite Hkp.
    + now rewrite IH.
Qed.

Lemma get_snoc {V} (l : Dict.t V) (k p : string) (v : V) :
  Dict.get (l ++ [(k, v)]) p
  = match Dict.get l p with
    | Some x => Some x
    | None => if String.eqb k p then Some v else None
    end.
Proof.
  induction l as [|[k' v'] l IH]; simpl; [reflexivity|].
  destruct (String.eqb k' p); [reflexivity | exact IH].
Qed.

Lemma scan_lookup_from (ms : list (string * Z)) (acc : Dict.t Z) (p : string) :
  Dict.get (fold_left (fun ret '(pci_id, xdma_id) => Dict.set ret pci_id xdma_id)
                      ms acc) p
  = match Dict.get (rev ms) p with
    | Some v => Some v
    | None => Dict.get acc p
    end.
Proof.
  revert acc. induction ms as [|[k v] ms IH]; intros acc; [reflexivity|].
  cbn [fold_left rev]. rewrite IH, get_snoc.
  destruct (Dict.get (rev ms) p); [reflexivity|].
  destruct (String.eqb k p) eqn:E.
  - apply String.eqb_eq in E. subst p. apply get_set_same.
  - now apply get_set_other.
Qed.

Lemma get_app_absent {V} (l m : Dict.t V) (p : string) :
  p ∉ Dict.keys l -> Dict.get (l ++ m) p = Dict.get m p.
Proof.
  unfold Dict.keys. induction l as [|[k v] l IH]; intros Hp; simpl; [reflexivity|].
  simpl in Hp. apply not_elem_of_cons in Hp as [Hne Hp].
  destruct (String.eqb_spec k p) as [->|_]; [congruence | now apply IH].
Qed.

(** The scan keeps, for a PCI id found more than once, the instance id
    of the path scanned last: whatever was scanned before the last path
    with that id, and whatever other ids were scanned after it. *)
Theorem enumeration_last_wins (before after : list (string * Z))
  (pci_id : string) (xdma_id : Z) :
  pci_id ∉ map fst after ->
  Dict.get (get_pcie_xdma_map (before ++ (pci_id, xdma_id) :: after)) pci_id
  = Some xdma_id.
Proof.
  intros Hlast. unfold get_pcie_xdma_map. rewrite scan_lookup_from.
  rewrite rev_app_distr. cbn [rev]. rewrite <- !app_assoc.
  rewrite get_app_absent.
  - simpl. now rewrite String.eqb_refl.
  - unfold Dict.keys. rewrite map_rev. intros Hin. apply Hlast.
    apply list_elem_of_In, in_rev. now apply list_elem_of_In.
Qed.

Lemma get_in_values (d : Dict.t Z) (A : string) (K : Z) :
  Dict.get d A = Some K -> in_values K d = true.
Proof.
  unfold in_values, Dict.values. induction d as [|[k v] d IH]; simpl.
  - discriminate.
  - destruct (String.eqb k A).
    + intros [= ->]. now rewrite Z.eqb_refl.
    + intros H. rewrite (IH H). apply orb_true_r.
Qed.

(** C6: when the mapping pairs PCI id [A] with instance id [K], the
    targets ["pcie" + A] and ["xdma" + str(K)] both resolve, and both to
    [K]. The mapping is the supplied one or, with none supplied, the
    host's enumeration. *)
Theorem resolve_pcie_xdma_agree
  (pcie_xdma_map : option (Dict.t Z)) (A : string) (K : Z) :
  Dict.get (pcie_xdma_dict xdma_dev_matches pcie_xdma_map) A = Some K ->
  getXdmaIdFromTarget xdma_dev_matches (TargetStr ("pcie" +:+ A)) pcie_xdma_map
    = Return K
  /\ getXdmaIdFromTarget xdma_dev_matches (TargetStr ("xdma" +:+ Py.str_of_int K))
       pcie_xdma_map = Return K.
Proof.
  intros HA. unfold getXdmaIdFromTarget.
  fold (pcie_xdma_dict xdma_dev_matches pcie_xdma_map).
  split.
  - change (Py.str_startswith ("pcie" +:+ A) "pcie") with true.
    cbv iota. rewrite str_from_pcie, HA. reflexivity.
  - change (Py.str_startswith ("xdma" +:+ Py.str_of_int K) "pcie") with false.
    cbv iota. unfold resolve_xdma.
    change (Py.str_startswith ("xdma" +:+ Py.str_of_int K) "xdma") with true.
    cbv iota. rewrite str_from_xdma. unfold int_of_target.
    rewrite int_of_str_of_int, (get_in_values _ _ _ HA). reflexivity.
Qed.

(** C7, where the code departs from it: a target ["xdma" + s] whose
    suffix [s] is no integer literal leaves [getXdmaIdFromTarget] with the
    [ValueError] of the unguarded [int(target[4:])], whatever the mapping;
    the descriptive [RuntimeError] is not reached. *)
Theorem resolve_xdma_suffix_not_integer
  (pcie_xdma_map : option (Dict.t Z)) (s : string) :
  Py.int_of_str s = None ->
  getXdmaIdFromTarget xdma_dev_matches (TargetStr ("xdma" +:+ s)) pcie_xdma_map
    = Raise invalid_literal.
Proof.
  intros Hs. unfold getXdmaIdFromTarget.
  change (Py.str_startswith ("xdma" +:+ s) "pcie") with false.
  cbv iota. unfold resolve_xdma.
  change (Py.str_startswith ("xdma" +:+ s) "xdma") with true.
  cbv iota. rewrite str_from_xdma. unfold int_of_target. rewrite Hs.
  reflexivity.
Qed.


End ResolverFacts.

Example resolve_pcie_xdma_agree_witness :
  getXdmaIdFromTarget [] (TargetStr "pcie0000:01:00.0") (Some example_map)
    = Return 0
  /\ getXdmaIdFromTarget [] (TargetStr "xdma0") (Some example_map) = Return 0.
Proof.
  exact (resolve_pcie_xdma_agree [] (Some example_map) "0000:01:00.0" 0 eq_refl).
Defined.

Example resolve_xdma_suffix_not_integer_witness :
  getXdmaIdFromTarget [] (TargetStr "xdmaabc") (Some example_map)
    = Raise invalid_literal.
Proof.
  exact (resolve_xdma_suffix_not_integer [] (Some example_map) "abc" eq_refl).
Defined.


(** ** Sequencing *)

Section Sequencing.

Lemma bind_returns {A B} (c : M A) (k : A -> M B) (w w' : world) (a : A) :
  c w = (Return a, w') -> bind c k w = k a w'.
Proof. intros H. unfold bind. now rewrite H. Qed.

Lemma bind_lift {A B} (a : A) (k : A -> M B) (w : world) :
  bind (lift (Return a)) k w = k a w.
Proof. reflexivity. Qed.

Lemma bind_ret {A B} (a : A) (k : A -> M B) (w : world) :
  bind (ret a) k w = k a w.
Proof. reflexivity. Qed.

Lemma bind_gets {A B} (f : LocalPcieTransport -> A) (k : A -> M B) (w : world) :
  bind (gets f) k w = k (f (fst w)) w.
Proof. reflexivity. Qed.

Lemma bind_assert_true {B} (msg : string) (k : unit -> M B) (w : world) :
  bind (py_assert true msg) k w = k tt w.
Proof. reflexivity. Qed.

Lemma read_file_found (w : world) (filename : string) (fpg : list byte) :
  files (snd w) !! filename = Some fpg -> read_file filename w = (Return fpg, w).
Proof. destruct w as [self h]. simpl. intros ->. reflexivity. Qed.

Lemma option_string_eqb_eq (a b : option string) :
  option_string_eqb a b = true <-> a = b.
Proof.
  destruct a as [x|], b as [y|]; simpl; try (split; congruence).
  rewrite String.eqb_eq. split; congruence.
Qed.

End Sequencing.

(** Running one step whose outcome is known. *)
Ltac returns_by H := rewrite (bind_returns _ _ _ _ _ H).

(** ** RegisterWindow *)

Section Slices.

Lemma adjust_in_range (N a size : Z) :
  0 <= a -> 0 <= size -> a + size <= N ->
  Py.adjust_index N a = a /\ Py.slicelength N a (a + size) = size.
Proof.
  intros Ha Hs Hr. unfold Py.slicelength, Py.adjust_index.
  destruct (Z.ltb_spec a 0), (Z.ltb_spec (a + size) 0); lia.
Qed.

(** When a slice assignment of [size] bytes at [a] is accepted, so is the
    assignment of any part of it, at the matching place. *)
Lemma adjust_chunk (N a size w n : Z) :
  0 < N -> Py.slicelength N a (a + size) = size ->
  0 <= w -> 0 < n -> w + n <= size ->
  Py.adjust_index N (a + w) = Py.adjust_index N a + w
  /\ Py.slicelength N (a + w) (a + w + n) = n.
Proof.
  unfold Py.slicelength, Py.adjust_index. intros HN Hs Hw Hn Hwn.
  destruct (Z.ltb_spec a 0), (Z.ltb_spec (a + size) 0),
    (Z.ltb_spec (a + w) 0), (Z.ltb_spec (a + w + n) 0); lia.
Qed.

Lemma slice_inner {A} (l : list A) (a b : Z) :
  0 <= a -> a <= b -> b <= Z.of_nat (length l) ->
  Py.slice l a b = take (Z.to_nat (b - a)) (drop (Z.to_nat a) l).
Proof.
  intros Ha Hab Hb. unfold Py.slice.
  destruct (adjust_in_range (Z.of_nat (length l)) a (b - a)) as [E1 E2]; try lia.
  replace (a + (b - a)) with b in E2 by lia. now rewrite E1, E2.
Qed.

Lemma length_slice_inner {A} (l : list A) (a b : Z) :
  0 <= a -> a <= b -> b <= Z.of_nat (length l) ->
  Z.of_nat (length (Py.slice l a b)) = b - a.
Proof.
  intros Ha Hab Hb. rewrite slice_inner by assumption.
  rewrite length_take, length_drop. lia.
Qed.

Lemma nth_slice_inner (l : list byte) (a b : Z) (j : nat) :
  0 <= a -> a <= b -> b <= Z.of_nat (length l) -> Z.of_nat j < b - a ->
  nth j (Py.slice l a b) x00 = nth (Z.to_nat a + j) l x00.
Proof.
  intros Ha Hab Hb Hj. rewrite slice_inner by assumption.
  rewrite nth_firstn.
  destruct (Nat.ltb_spec j (Z.to_nat (b - a))); [|lia].
  apply nth_skipn.
Qed.

End Slices.

Section Window.

Lemma MAP_SIZE_pos : 0 < MAP_SIZE.
Proof. reflexivity. Qed.

Lemma set_axil_mm_with (w : world) (mm : mmap) :
  set_axil_mm mm w = (Return tt, with_mm w mm).
Proof. destruct w. reflexivity. Qed.

Lemma with_mm_same_state (w : world) (mm mm' : mmap) :
  same_bytes mm mm' -> same_state (with_mm w mm) (with_mm w mm').
Proof. intros H. repeat split; try reflexivity. exact H. Qed.

(** Address resolution reads [memory_devices] only and changes nothing. *)
Lemma get_device_address_with_mm (dev : device) (w : world) (a : Z) (mm : mmap) :
  _get_device_address dev w = (Return a, w) ->
  _get_device_address dev (with_mm w mm) = (Return a, with_mm w mm).
Proof.
  unfold _get_device_address, bind, gets. simpl.
  destruct dev as [name|addr].
  - destruct (memory_devices (fst w) !! name); unfold ret, raise;
      intros [= <-]; reflexivity.
  - destruct ((0 <=? addr) && (addr <? 2 ^ 32)); unfold ret, raise;
      intros [= <-]; reflexivity.
Qed.

Lemma get_device_address_frame (dev : device) (w : world) :
  snd (_get_device_address dev w) = w.
Proof.
  unfold _get_device_address, bind, gets. simpl.
  destruct dev as [name|addr].
  - destruct (memory_devices (fst w) !! name); reflexivity.
  - destruct ((0 <=? addr) && (addr <? 2 ^ 32)); reflexivity.
Qed.

(** One accepted slice assignment, as a step on worlds. *)
Lemma assign_axil_mm_accepted (w : world) (cur : mmap) (start stop : Z)
  (value : list byte) :
  Z.of_nat (length value) = Py.slicelength MAP_SIZE start stop ->
  assign_axil_mm start stop value (with_mm w cur)
  = (Return tt,
     with_mm w (store cur (Py.adjust_index MAP_SIZE start)
                      (Py.slicelength MAP_SIZE start stop) value)).
Proof.
  intros Hlen. unfold assign_axil_mm, bind, gets, lift, mmap_setslice. simpl.
  rewrite Hlen, Z.eqb_refl. reflexivity.
Qed.

(** Storing the next chunk after a prefix is storing a longer prefix. *)
Lemma store_chunk (mm0 cur : mmap) (i0 : Z) (data : list byte) (w n : Z) :
  0 <= w -> 0 < n -> w + n <= Z.of_nat (length data) ->
  same_bytes cur (store mm0 i0 w data) ->
  same_bytes (store cur (i0 + w) n (Py.slice data w (w + n)))
             (store mm0 i0 (w + n) data).
Proof.
  intros Hw Hn Hwn Hcur k. unfold store.
  destruct (Z.leb_spec (i0 + w) k), (Z.ltb_spec k (i0 + w + n)); simpl.
  - destruct (Z.leb_spec i0 k), (Z.ltb_spec k (i0 + (w + n))); try lia. simpl.
    rewrite nth_slice_inner by lia. f_equal. lia.
  - rewrite Hcur. unfold store.
    destruct (Z.leb_spec i0 k), (Z.ltb_spec k (i0 + w)),
      (Z.ltb_spec k (i0 + (w + n))); simpl; try lia; reflexivity.
  - rewrite Hcur. unfold store.
    destruct (Z.leb_spec i0 k), (Z.ltb_spec k (i0 + w)),
      (Z.ltb_spec k (i0 + (w + n))); simpl; try lia; reflexivity.
  - rewrite Hcur. unfold store.
    destruct (Z.leb_spec i0 k), (Z.ltb_spec k (i0 + w)),
      (Z.ltb_spec k (i0 + (w + n))); simpl; try lia; reflexivity.
Qed.

(** The loop invariant: with [written] bytes stored, enough iterations
    left, and the whole assignment acceptable, the loop ends normally with
    the whole payload stored. *)
Lemma write_chunks_stores (w0 : world) (mm0 : mmap) (addr : Z) (data : list byte) :
  let size := Z.of_nat (length data) in
  let i0 := Py.adjust_index MAP_SIZE addr in
  Py.slicelength MAP_SIZE addr (addr + size) = size ->
  forall (iters : nat) (written : Z) (cur : mmap),
    0 <= written <= size ->
    size - written <= Z.of_nat iters * block_size ->
    same_bytes cur (store mm0 i0 written data) ->
    exists fin,
      write_chunks iters addr size data written (with_mm w0 cur)
      = (Return tt, with_mm w0 fin)
      /\ same_bytes fin (store mm0 i0 size data).
Proof.
  intros size i0 Hok. unfold block_size.
  induction iters as [|iters IH]; intros written cur Hw Hleft Hcur.
  - exists cur. split; [reflexivity|].
    replace size with written by lia. exact Hcur.
  - cbn [write_chunks]. unfold block_size.
    set (n := Z.min (size - written) 4096).
    destruct (Z.ltb_spec 0 n) as [Hn|Hn].
    + destruct (adjust_chunk MAP_SIZE addr size written n MAP_SIZE_pos Hok)
        as [Ei En]; try lia.
      assert (Hlen : Z.of_nat (length (Py.slice data written (written + n)))
                     = Py.slicelength MAP_SIZE (addr + written)
                         (addr + written + n)).
      { rewrite En. rewrite length_slice_inner; lia. }
      unfold bind at 1. rewrite (assign_axil_mm_accepted _ _ _ _ _ Hlen).
      rewrite Ei, En. fold i0.
      apply IH; [lia | lia |].
      apply store_chunk; (lia || assumption).
    + unfold bind at 1. unfold ret at 1.
      apply IH; [lia | lia |].
      replace (written + n) with written by lia. exact Hcur.
Qed.

End Window.

Section WindowOperations.

Lemma world_with_own_mm (w : world) : with_mm w (axil_mm (fst w)) = w.
Proof. destruct w as [[] ?]. reflexivity. Qed.

Lemma enough_iterations (size : Z) :
  0 <= size -> size <= Z.of_nat (Z.to_nat (size / block_size + 1)) * block_size.
Proof.
  intros Hs. unfold block_size.
  pose proof (Z.div_mod size 4096 ltac:(lia)).
  pose proof (Z.mod_pos_bound size 4096 ltac:(lia)).
  assert (0 <= size / 4096) by (apply Z.div_pos; lia).
  rewrite Z2Nat.id by lia. lia.
Qed.

(** [blindwrite] on aligned bytes whose single assignment would be
    accepted: it returns normally and the payload is in the mapping. *)
Lemma blindwrite_stores (w : world) (dev : device) (data : list byte)
  (offset a : Z) :
  let size := Z.of_nat (length data) in
  let addr := a - AXIL_PCI_ADDR_TRANSLATION + offset in
  size mod 4 = 0 -> offset mod 4 = 0 ->
  _get_device_address dev w = (Return a, w) ->
  Py.slicelength MAP_SIZE addr (addr + size) = size ->
  exists fin,
    blindwrite dev (Bytes data) offset w = (Return tt, with_mm w fin)
    /\ same_bytes fin
         (store (axil_mm (fst w)) (Py.adjust_index MAP_SIZE addr) size data).
Proof.
  intros size addr Hsize Hoff Hdev Hok.
  destruct (write_chunks_stores w (axil_mm (fst w)) addr data Hok
              (Z.to_nat (size / block_size + 1)) 0 (axil_mm (fst w)))
    as (fin & Hrun & Hfin).
  - lia.
  - rewrite Z.sub_0_r. apply enough_iterations. lia.
  - intros k. unfold store.
    destruct (Z.leb_spec (Py.adjust_index MAP_SIZE addr) k),
      (Z.ltb_spec k (Py.adjust_index MAP_SIZE addr + 0)); simpl; (lia || reflexivity).
  - exists fin. split; [|exact Hfin].
    rewrite world_with_own_mm in Hrun.
    unfold blindwrite. cbn [len]. rewrite bind_lift. cbv beta.
    cbn [is_bytes as_bytes]. fold size.
    rewrite Hsize, Hoff. cbn [Z.eqb py_assert].
    unfold bind at 1. unfold ret at 1.
    unfold bind at 1. unfold ret at 1.
    unfold bind at 1. unfold ret at 1.
    unfold bind at 1. rewrite Hdev. exact Hrun.
Qed.

(** What it takes for the single assignment to return normally. *)
Lemma single_write_returns (w ws : world) (dev : device) (data : list byte)
  (offset : Z) :
  single_write dev data offset w = (Return tt, ws) ->
  exists a,
    let size := Z.of_nat (length data) in
    let addr := a - AXIL_PCI_ADDR_TRANSLATION + offset in
    _get_device_address dev w = (Return a, w)
    /\ Py.slicelength MAP_SIZE addr (addr + size) = size
    /\ ws = with_mm w (store (axil_mm (fst w))
                         (Py.adjust_index MAP_SIZE addr) size data).
Proof.
  unfold single_write. unfold bind at 1.
  pose proof (get_device_address_frame dev w) as Hframe.
  destruct (_get_device_address dev w) as [[a|e] w1]; simpl in Hframe; subst w1;
    [|discriminate].
  intros Hrun. exists a. cbv zeta. split; [reflexivity|].
  unfold assign_axil_mm, bind, gets, lift, mmap_setslice in Hrun.
  cbn [fst snd] in Hrun.
  destruct (Z.eqb_spec (Z.of_nat (length data))
              (Py.slicelength MAP_SIZE (a - AXIL_PCI_ADDR_TRANSLATION + offset)
                 (a - AXIL_PCI_ADDR_TRANSLATION + offset + Z.of_nat (length data))))
    as [E|E]; [|discriminate].
  rewrite set_axil_mm_with in Hrun. injection Hrun as <-.
  rewrite <- E. split; reflexivity.
Qed.

(** An assignment within the window is accepted. *)
Lemma single_write_in_window (w : world) (dev : device) (data : list byte)
  (offset a : Z) :
  let size := Z.of_nat (length data) in
  let addr := a - AXIL_PCI_ADDR_TRANSLATION + offset in
  _get_device_address dev w = (Return a, w) ->
  0 <= addr -> addr + size <= MAP_SIZE ->
  single_write dev data offset w
  = (Return tt, with_mm w (store (axil_mm (fst w)) addr size data)).
Proof.
  intros size addr Hdev Hlo Hhi. unfold single_write.
  returns_by Hdev. fold addr size.
  destruct (adjust_in_range MAP_SIZE addr size) as [Ei En]; try lia.
  rewrite <- (world_with_own_mm w) at 1.
  rewrite assign_axil_mm_accepted by (rewrite En; reflexivity).
  now rewrite Ei, En.
Qed.

Lemma store_read_back (mm : mmap) (a : Z) (data : list byte) :
  store mm a (Z.of_nat (length data)) data <$> seqZ a (Z.of_nat (length data))
  = data.
Proof.
  apply list_eq. intros i. rewrite list_lookup_fmap.
  destruct (decide (i < length data)%nat) as [Hi|Hi].
  - rewrite lookup_seqZ_lt by lia. simpl. unfold store.
    destruct (Z.leb_spec a (a + Z.of_nat i)),
      (Z.ltb_spec (a + Z.of_nat i) (a + Z.of_nat (length data))); try lia.
    simpl. replace (Z.to_nat (a + Z.of_nat i - a)) with i by lia.
    destruct (lookup_lt_is_Some_2 data i Hi) as [x Hx].
    rewrite Hx. f_equal. now apply nth_lookup_Some.
  - rewrite lookup_seqZ_ge by lia. rewrite lookup_ge_None_2 by lia. reflexivity.
Qed.

Lemma read_returns (w : world) (dev : device) (a size offset : Z) :
  _get_device_address dev w = (Return a, w) ->
  let addr := a - AXIL_PCI_ADDR_TRANSLATION + offset in
  read dev size offset w
  = (Return (mmap_getslice (axil_mm (fst w)) addr (addr + size)), w).
Proof.
  intros Hdev addr. unfold read. unfold bind at 1. rewrite Hdev. reflexivity.
Qed.

End WindowOperations.

Section WindowClaims.

(** C1: a valid aligned write followed by a read of the same length at
    the same device and offset returns the bytes written. Valid means: the
    device resolves, the length and the offset are multiples of 4, and the
    translated range lies within the window of [MAP_SIZE] bytes. *)
Theorem write_read_round_trip (w : world) (dev : device) (a : Z)
  (data : list byte) (offset : Z) :
  let size := Z.of_nat (length data) in
  let addr := a - AXIL_PCI_ADDR_TRANSLATION + offset in
  _get_device_address dev w = (Return a, w) ->
  size mod 4 = 0 -> offset mod 4 = 0 ->
  0 <= addr -> addr + size <= MAP_SIZE ->
  exists w',
    blindwrite dev (Bytes data) offset w = (Return tt, w')
    /\ read dev size offset w' = (Return data, w').
Proof.
  intros size addr Hdev Hsize Hoff Hlo Hhi.
  destruct (adjust_in_range MAP_SIZE addr size) as [Ei En]; try lia.
  destruct (blindwrite_stores w dev data offset a Hsize Hoff Hdev En)
    as (fin & Hrun & Hfin).
  exists (with_mm w fin). split; [exact Hrun|].
  rewrite (read_returns _ _ a) by now apply get_device_address_with_mm.
  f_equal. f_equal. unfold mmap_getslice. fold addr. rewrite Ei, En.
  cbn [fst with_mm axil_mm].
  transitivity (store (axil_mm (fst w)) addr size data <$> seqZ addr size);
    [|apply store_read_back].
  apply list_fmap_ext. intros i k _. rewrite Hfin.
  fold addr. rewrite Ei. reflexivity.
Qed.

(** C2, as the code has it: whenever the single contiguous assignment of
    an aligned payload at the translated address is accepted by the
    mapping, the chunked loop of [blindwrite] returns normally too and
    leaves the same state: every byte of the mapping, and all else. *)
Theorem chunked_write_as_single (w ws : world) (dev : device)
  (data : list byte) (offset : Z) :
  Z.of_nat (length data) mod 4 = 0 -> offset mod 4 = 0 ->
  single_write dev data offset w = (Return tt, ws) ->
  exists wc,
    blindwrite dev (Bytes data) offset w = (Return tt, wc)
    /\ same_state wc ws.
Proof.
  intros Hsize Hoff Hsingle.
  destruct (single_write_returns _ _ _ _ _ Hsingle) as (a & Hdev & Hok & ->).
  destruct (blindwrite_stores w dev data offset a Hsize Hoff Hdev Hok)
    as (fin & Hrun & Hfin).
  exists (with_mm w fin). split; [exact Hrun|].
  now apply with_mm_same_state.
Qed.


(** C9, as the code has it: for a device that resolves, a size that is
    not negative and an offset such that the logical range
    [addr, addr + size), with [addr = address - translation + offset], lies
    within the window, [read] returns exactly [size] bytes, the contents of
    the window at that range, whatever the alignment; the world is
    unchanged. *)
Theorem read_in_window (w : world) (dev : device) (a size offset : Z) :
  let addr := a - AXIL_PCI_ADDR_TRANSLATION + offset in
  _get_device_address dev w = (Return a, w) ->
  0 <= size -> 0 <= addr -> addr + size <= MAP_SIZE ->
  read dev size offset w = (Return (axil_mm (fst w) <$> seqZ addr size), w)
  /\ Z.of_nat (length (axil_mm (fst w) <$> seqZ addr size)) = size.
Proof.
  intros addr Hdev Hsize Hlo Hhi. split.
  - rewrite (read_returns _ _ a) by assumption. fold addr.
    unfold mmap_getslice.
    destruct (adjust_in_range MAP_SIZE addr size) as [-> ->]; (lia || reflexivity).
  - rewrite length_fmap, length_seqZ. lia.
Qed.

End WindowClaims.

Example write_read_round_trip_witness :
  exists w',
    blindwrite (DevAddr 0) (Bytes (Py.bytes_mul x5a 8192)) 0 world0 = (Return tt, w')
    /\ read (DevAddr 0) 8192 0 w' = (Return (Py.bytes_mul x5a 8192), w').
Proof.
  apply (write_read_round_trip world0 (DevAddr 0) 0 (Py.bytes_mul x5a 8192) 0);
    vm_compute; (reflexivity || discriminate).
Defined.

Example chunked_write_as_single_witness :
  exists wc,
    blindwrite (DevName "sys_scratchpad") (Bytes (Py.bytes_mul x5a 8192)) 8 world0
    = (Return tt, wc)
    /\ same_state wc
         (with_mm world0 (store blank 4104 8192 (Py.bytes_mul x5a 8192))).
Proof.
  apply (chunked_write_as_single world0 _ (DevName "sys_scratchpad")
           (Py.bytes_mul x5a 8192) 8); reflexivity.
Defined.



Example read_in_window_witness :
  read (DevAddr 5) 3 2 world0 = (Return [x00; x00; x00], world0)
  /\ Z.of_nat (length (blank <$> seqZ 7 3)) = 3.
Proof.
  apply (read_in_window world0 (DevAddr 5) 5 3 2);
    vm_compute; (reflexivity || discriminate).
Defined.

(** C9 as stated fails past the end of the window: a read of 4 bytes at
    the last two bytes of the window returns 2 bytes. *)
Example read_past_window_is_short :
  read (DevAddr (MAP_SIZE - 2)) 4 0 world0 = (Return [x00; x00], world0).
Proof. reflexivity. Qed.

(** C2 as stated fails when the payload runs past the end of the window:
    both writes raise [IndexError], but the chunked loop has stored its
    first chunk by then, and the single assignment has stored nothing. *)
Example chunked_write_partial :
  let dev := DevAddr (MAP_SIZE - 4096) in
  let data := Py.bytes_mul x5a 4100 in
  let chunked := blindwrite dev (Bytes data) 0 world0 in
  let single := single_write dev data 0 world0 in
  fst chunked = Raise (IndexError "mmap slice assignment is wrong size")
  /\ fst single = Raise (IndexError "mmap slice assignment is wrong size")
  /\ axil_mm (fst (snd chunked)) (MAP_SIZE - 1) = x5a
  /\ axil_mm (fst (snd single)) (MAP_SIZE - 1) = x00.
Proof. vm_compute. repeat split. Qed.

(** ** BitstreamExtractor *)

Section Finding.

Lemma startswith_app (p rest : list byte) : Py.startswith (p ++ rest) p = true.
Proof.
  induction p as [|x p IH]; simpl; [reflexivity|].
  rewrite (Byte.byte_dec_lb eq_refl). exact IH.
Qed.

Lemma find_from_first (sub : list byte) (n : nat) :
  forall (b : list byte) (i : Z),
    absent_before n b sub ->
    Py.startswith (drop n b) sub = true ->
    Py.find_from b sub i = i + Z.of_nat n.
Proof.
  induction n as [|n IH]; intros b i Hbefore Hat.
  - rewrite drop_0 in Hat. destruct b; simpl; rewrite Hat; lia.
  - pose proof (Hbefore 0%nat ltac:(lia)) as H0. rewrite drop_0 in H0.
    destruct b as [|x b].
    + rewrite drop_nil in Hat. congruence.
    + simpl. rewrite H0. rewrite IH.
      * lia.
      * intros j Hj. apply (Hbefore (S j)). lia.
      * exact Hat.
Qed.

Lemma find_from_absent (sub : list byte) :
  forall (b : list byte) (i : Z), absent b sub -> Py.find_from b sub i = -1.
Proof.
  induction b as [|x b IH]; intros i Habs.
  - pose proof (Habs 0%nat) as H0. rewrite drop_0 in H0.
    simpl. now rewrite H0.
  - pose proof (Habs 0%nat) as H0. rewrite drop_0 in H0.
    simpl. rewrite H0. apply IH. intros j. apply (Habs (S j)).
Qed.

(** [find] returns the index of the first occurrence. *)
Lemma find_first (pre sub post : list byte) :
  absent_before (length pre) (pre ++ sub ++ post) sub ->
  Py.find (pre ++ sub ++ post) sub = Z.of_nat (length pre).
Proof.
  intros Hbefore. unfold Py.find. rewrite (find_from_first sub (length pre)).
  - lia.
  - exact Hbefore.
  - rewrite drop_app_length. apply startswith_app.
Qed.

Lemma find_absent (b sub : list byte) : absent b sub -> Py.find b sub = -1.
Proof. apply find_from_absent. Qed.

(** Padding with [b"0"] never completes a gzip signature. *)
Lemma padded_not_gzip (payload : list byte) (n : Z) :
  Py.startswith payload gzip_magic = false ->
  Py.startswith (payload ++ Py.bytes_mul pad_byte n) gzip_magic = false.
Proof.
  unfold Py.bytes_mul. generalize (Z.to_nat n) as k. intros k H.
  destruct payload as [|a [|b [|c rest]]]; simpl in *.
  - destruct k as [|k]; reflexivity.
  - destruct k as [|k]; simpl; [apply andb_false_r|].
    destruct (Byte.eqb a x1f); reflexivity.
  - destruct k as [|k]; simpl.
    + destruct (Byte.eqb a x1f), (Byte.eqb b x8b); reflexivity.
    + destruct (Byte.eqb a x1f), (Byte.eqb b x8b); reflexivity.
  - exact H.
Qed.

Lemma pad_to_ceiling (n : Z) :
  0 <= n -> n mod 1024 <> 0 -> 1024 - n mod 1024 = ceil_div n 1024 * 1024 - n.
Proof.
  intros Hn Hr. unfold ceil_div. Z.div_mod_to_equations. lia.
Qed.

End Finding.

Section Extraction.

Variable zlib_decompress : list byte -> result (list byte).
Variable md5_hexdigest : list byte -> string.

(** What [_extract_bitstream] returns for a payload that does not look
    compressed: the two padded sections of lines 95-96 and the digest. *)
Lemma extract_plain (w : world) (filename : string) (fpg : list byte) :
  files (snd w) !! filename = Some fpg ->
  Py.startswith (prog fpg) gzip_magic = false ->
  _extract_bitstream zlib_decompress md5_hexdigest filename w
  = (Return (header fpg, prog fpg, md5_hexdigest fpg), w).
Proof.
  intros Hfile Hplain. unfold _extract_bitstream.
  returns_by (read_file_found _ _ _ Hfile).
  rewrite Hplain. reflexivity.
Qed.

(** A payload that carries the gzip signature is handed to zlib, and the
    program returned is zlib's output. *)
Lemma extract_gzip (w : world) (filename : string) (fpg out : list byte) :
  files (snd w) !! filename = Some fpg ->
  Py.startswith (prog fpg) gzip_magic = true ->
  zlib_decompress (prog fpg) = Return out ->
  _extract_bitstream zlib_decompress md5_hexdigest filename w
  = (Return (header fpg, out, md5_hexdigest fpg), w).
Proof.
  intros Hfile Hgzip Hout. unfold _extract_bitstream.
  returns_by (read_file_found _ _ _ Hfile).
  rewrite Hgzip. unfold lift, bind. rewrite Hout. reflexivity.
Qed.

(** The split of an image [h0 ++ sentinel ++ payload] whose first sentinel
    is the one shown: each section gets [1024 - length mod 1024] bytes of
    padding, whatever the lengths. *)
Lemma sections_of_image (h0 payload : list byte) :
  let hdr := h0 ++ sentinel in
  let fpg := hdr ++ payload in
  let H := Z.of_nat (length hdr) in
  let L := Z.of_nat (length payload) in
  absent_before (length h0) fpg sentinel ->
  header_offset fpg = H
  /\ header fpg = hdr ++ Py.bytes_mul pad_byte (1024 - H mod 1024)
  /\ prog fpg = payload ++ Py.bytes_mul pad_byte (1024 - L mod 1024).
Proof.
  intros hdr fpg H L Hfirst.
  assert (Hoff : header_offset fpg = H).
  { unfold header_offset, fpg, hdr. rewrite <- app_assoc.
    rewrite find_first.
    - unfold H, hdr. rewrite length_app. simpl. lia.
    - unfold fpg, hdr in Hfirst. now rewrite <- app_assoc in Hfirst. }
  assert (Hlen : Z.of_nat (length fpg) = H + L).
  { unfold fpg, H, L. rewrite length_app. lia. }
  assert (HH : H = Z.of_nat (length hdr)) by reflexivity.
  assert (HL : L = Z.of_nat (length payload)) by reflexivity.
  clearbody H L.
  split; [exact Hoff|]. split.
  - unfold header. rewrite Hoff. f_equal.
    rewrite slice_inner by lia.
    replace (Z.to_nat (H - 0)) with (length hdr) by lia.
    change (Z.to_nat 0) with 0%nat. rewrite drop_0.
    apply take_app_length.
  - unfold prog, Py.slice_from. rewrite Hoff.
    replace (Z.of_nat (length fpg) - H) with L by lia. f_equal.
    rewrite slice_inner by lia.
    replace (Z.to_nat H) with (length hdr) by lia.
    unfold fpg. rewrite drop_app_length. apply take_ge.
    rewrite length_app. lia.
Qed.

(** The length of a section padded up to the ceiling. *)
Lemma length_padded_to_ceiling (section : list byte) :
  let n := Z.of_nat (length section) in
  n mod 1024 <> 0 ->
  Z.of_nat (length (section ++ Py.bytes_mul pad_byte (ceil_div n 1024 * 1024 - n)))
  = ceil_div n 1024 * 1024.
Proof.
  intros n Hn. assert (Hn0 : 0 <= n) by (unfold n; lia).
  unfold Py.bytes_mul. rewrite length_app, repeat_length. fold n.
  pose proof (pad_to_ceiling n Hn0 Hn).
  pose proof (Z.mod_pos_bound n 1024 ltac:(lia)). lia.
Qed.

(** C3, as the code has it: for an image whose header ends at its first
    sentinel and whose payload does not carry the gzip signature,
    [_extract_bitstream] returns a header and a program such that, when
    the header's length is not a multiple of 1024, the header returned is
    the header padded with [b"0"] bytes (0x30) to the next multiple of
    1024, and, when the payload's length [L] is not a multiple of 1024,
    the program returned is the payload padded with [b"0"] bytes to
    [ceil(L/1024)*1024]; each padding is computed from its own section. *)
Theorem extract_pads_sections (w : world) (filename : string)
  (h0 payload : list byte) :
  let hdr := h0 ++ sentinel in
  let fpg := hdr ++ payload in
  let H := Z.of_nat (length hdr) in
  let L := Z.of_nat (length payload) in
  files (snd w) !! filename = Some fpg ->
  absent_before (length h0) fpg sentinel ->
  Py.startswith payload gzip_magic = false ->
  exists padded_header program,
    _extract_bitstream zlib_decompress md5_hexdigest filename w
    = (Return (padded_header, program, md5_hexdigest fpg), w)
    /\ (H mod 1024 <> 0 ->
        padded_header = hdr ++ Py.bytes_mul pad_byte (ceil_div H 1024 * 1024 - H)
        /\ Z.of_nat (length padded_header) = ceil_div H 1024 * 1024)
    /\ (L mod 1024 <> 0 ->
        program = payload ++ Py.bytes_mul pad_byte (ceil_div L 1024 * 1024 - L)
        /\ Z.of_nat (length program) = ceil_div L 1024 * 1024).
Proof.
  intros hdr fpg H L Hfile Hfirst Hplain.
  destruct (sections_of_image h0 payload Hfirst) as (_ & Hhd & Hpg).
  fold hdr fpg H L in Hhd, Hpg.
  assert (H0 : 0 <= H) by (unfold H; lia).
  assert (L0 : 0 <= L) by (unfold L; lia).
  exists (header fpg), (prog fpg). split; [|split].
  - apply (extract_plain w filename fpg Hfile).
    rewrite Hpg. now apply padded_not_gzip.
  - intros HH. rewrite Hhd, (pad_to_ceiling H H0 HH).
    split; [reflexivity|]. now apply length_padded_to_ceiling.
  - intros HL. rewrite Hpg, (pad_to_ceiling L L0 HL).
    split; [reflexivity|]. now apply length_padded_to_ceiling.
Qed.

(** Whatever the lengths of the two sections, each gets
    [1024 - length mod 1024] bytes of [b"0"]: between 1 and 1024 bytes, a
    whole block when the length is a multiple of 1024 already. *)
Theorem extract_pads_every_length (w : world) (filename : string)
  (h0 payload : list byte) :
  let hdr := h0 ++ sentinel in
  let fpg := hdr ++ payload in
  let H := Z.of_nat (length hdr) in
  let L := Z.of_nat (length payload) in
  files (snd w) !! filename = Some fpg ->
  absent_before (length h0) fpg sentinel ->
  Py.startswith payload gzip_magic = false ->
  _extract_bitstream zlib_decompress md5_hexdigest filename w
  = (Return (hdr ++ Py.bytes_mul pad_byte (1024 - H mod 1024),
             payload ++ Py.bytes_mul pad_byte (1024 - L mod 1024),
             md5_hexdigest fpg), w).
Proof.
  intros hdr fpg H L Hfile Hfirst Hplain.
  destruct (sections_of_image h0 payload Hfirst) as (_ & Hhd & Hpg).
  fold hdr fpg H L in Hhd, Hpg.
  rewrite (extract_plain w filename fpg Hfile).
  - fold fpg. rewrite Hhd, Hpg. reflexivity.
  - fold fpg. rewrite Hpg. now apply padded_not_gzip.
Qed.

(** C4, where the code departs from it: a file in which the sentinel does
    not occur is not refused. [find] gives [-1], the header is taken to be
    the first 6 bytes, and (unless what follows looks compressed) the call
    returns normally with that split. *)
Theorem extract_without_sentinel (w : world) (filename : string)
  (fpg : list byte) :
  files (snd w) !! filename = Some fpg ->
  absent fpg sentinel ->
  Py.startswith (prog fpg) gzip_magic = false ->
  header_offset fpg = 6
  /\ _extract_bitstream zlib_decompress md5_hexdigest filename w
     = (Return (Py.slice fpg 0 6 ++ Py.bytes_mul pad_byte 1018, prog fpg,
                md5_hexdigest fpg), w).
Proof.
  intros Hfile Habs Hplain.
  assert (Hoff : header_offset fpg = 6).
  { unfold header_offset. now rewrite find_absent. }
  split; [exact Hoff|].
  rewrite (extract_plain w filename fpg Hfile Hplain).
  unfold header. rewrite Hoff. reflexivity.
Qed.

End Extraction.

(** ** Transport: upload *)

Section UploadClaims.

Variable parse_fpg : string -> result fpg_header.
Variable zlib_decompress : list byte -> result (list byte).
Variable md5_hexdigest : list byte -> string.

Local Abbreviation upload :=
  (upload_to_ram_and_program parse_fpg zlib_decompress md5_hexdigest).
Local Abbreviation extract := (_extract_bitstream zlib_decompress md5_hexdigest).

Lemma parse_template_meta_returns (w : world) (filename : string)
  (hdr : fpg_header) :
  parse_fpg filename = Return hdr ->
  _parse_template_meta parse_fpg filename w = (Return (first_section_template hdr), w).
Proof. intros H. unfold _parse_template_meta, bind, lift. now rewrite H. Qed.

(** An exception of the metadata parser is not caught: the call sits
    before the [try]. *)
Lemma parse_template_meta_raises (w : world) (filename : string) (e : exn) :
  parse_fpg filename = Raise e ->
  _parse_template_meta parse_fpg filename w = (Raise e, w).
Proof. intros H. unfold _parse_template_meta, bind, lift. now rewrite H. Qed.

Lemma no_template_first_section (hdr : fpg_header) :
  no_template hdr <-> first_section_template hdr = None.
Proof.
  unfold first_section_template. split.
  - intros [->|(k & section & rest & -> & Hkey)]; [reflexivity|].
    simpl. rewrite String.eqb_refl. exact Hkey.
  - destruct hdr as [|[k section] rest]; [now left|].
    simpl. rewrite String.eqb_refl. intros Hkey. right. eauto.
Qed.

(** The head of [upload_to_ram_and_program] for a session that holds a
    template: any other template, or none, is refused and nothing has
    happened. *)
Lemma upload_refuses (self : LocalPcieTransport) (h : host)
  (filename T : string) (hdr : fpg_header) :
  Py.str_endswith filename ".fpg" = true ->
  fpg_template self = Some T ->
  parse_fpg filename = Return hdr ->
  first_section_template hdr <> Some T ->
  upload filename (self, h)
  = (Raise (RuntimeError (TemplateMismatch (Some T) (first_section_template hdr))),
     (self, h)).
Proof.
  intros Hext HT Hparse Hdiff. unfold upload_to_ram_and_program.
  rewrite Hext, bind_assert_true.
  returns_by (parse_template_meta_returns (self, h) _ _ Hparse).
  rewrite bind_gets. cbn [fst]. rewrite HT.
  destruct (option_string_eqb (Some T) (first_section_template hdr)) eqn:E.
  - apply option_string_eqb_eq in E. congruence.
  - reflexivity.
Qed.

(** The rest of [upload_to_ram_and_program] once the template check has
    passed and the bitstream is extracted: it is streamed in one write, and
    a session without a template adopts the image's. *)
Lemma upload_streams (self : LocalPcieTransport) (h : host)
  (filename : string) (hdr : fpg_header) (header bitstream : list byte)
  (md5 : string) :
  Py.str_endswith filename ".fpg" = true ->
  parse_fpg filename = Return hdr ->
  fpg_template self = None \/ fpg_template self = first_section_template hdr ->
  extract filename (self, h) = (Return (header, bitstream, md5), (self, h)) ->
  upload filename (self, h)
  = (Return true,
     (adopting self (first_section_template hdr),
      after_streaming h (_axid_dev self) bitstream)).
Proof.
  intros Hext Hparse Hcheck Hextract. unfold upload_to_ram_and_program.
  rewrite Hext, bind_assert_true.
  returns_by (parse_template_meta_returns (self, h) _ _ Hparse).
  rewrite bind_gets. cbn [fst]. unfold adopting.
  destruct (fpg_template self) as [T|] eqn:HT.
  - destruct Hcheck as [Hcheck|Hcheck]; [discriminate|]. rewrite <- Hcheck.
    assert (E : option_string_eqb (Some T) (Some T) = true)
      by now apply option_string_eqb_eq.
    rewrite E. cbn [negb]. rewrite bind_ret. returns_by Hextract.
    unfold bind, gets, write_device, ret. simpl. rewrite HT. reflexivity.
  - rewrite bind_ret. returns_by Hextract.
    unfold bind, gets, write_device, ret. simpl. rewrite HT.
    destruct (first_section_template hdr); reflexivity.
Qed.

(** C5: when the session holds a template [T] and the image (a file named
    [*.fpg] that the metadata parser accepts) declares another one, or
    none, the upload raises the template-mismatch [RuntimeError] and the
    world is as it was: nothing was written to the programming device and
    the session's template is still [T]. *)
Theorem upload_template_mismatch (self : LocalPcieTransport) (h : host)
  (filename T : string) (hdr : fpg_header) :
  Py.str_endswith filename ".fpg" = true ->
  fpg_template self = Some T ->
  parse_fpg filename = Return hdr ->
  first_section_template hdr <> Some T ->
  let after := upload filename (self, h) in
  fst after
  = Raise (RuntimeError (TemplateMismatch (Some T) (first_section_template hdr)))
  /\ streamed (snd (snd after)) = streamed h
  /\ fpg_template (fst (snd after)) = Some T
  /\ snd after = (self, h).
Proof.
  intros Hext HT Hparse Hdiff after. unfold after.
  rewrite (upload_refuses self h filename T hdr) by assumption.
  simpl. auto.
Qed.

(** C10, as the code has it: when the metadata parser returns a header
    that yields no template (no section, or a first section without
    ["pr_template"]), template recovery returns [None]. An upload of such an
    image, named [*.fpg], into a session without a template returns [True]
    once the bitstream is extracted, streams it, and leaves the session as
    it was, still without a template; into a session that holds a template
    it raises the template-mismatch error and changes nothing. *)
Theorem upload_untagged_image (h : host) (filename : string) (hdr : fpg_header) :
  parse_fpg filename = Return hdr ->
  no_template hdr ->
  Py.str_endswith filename ".fpg" = true ->
  (forall self,
      _parse_template_meta parse_fpg filename (self, h) = (Return None, (self, h)))
  /\ (forall self header bitstream md5,
         fpg_template self = None ->
         extract filename (self, h) = (Return (header, bitstream, md5), (self, h)) ->
         upload filename (self, h)
         = (Return true, (self, after_streaming h (_axid_dev self) bitstream)))
  /\ (forall self T,
         fpg_template self = Some T ->
         upload filename (self, h)
         = (Raise (RuntimeError (TemplateMismatch (Some T) None)), (self, h))).
Proof.
  intros Hparse Hnone Hext. apply no_template_first_section in Hnone.
  split; [|split].
  - intros self. rewrite (parse_template_meta_returns _ _ _ Hparse).
    now rewrite Hnone.
  - intros self header bitstream md5 HT Hextract.
    rewrite (upload_streams self h filename hdr header bitstream md5)
      by auto.
    rewrite Hnone. unfold adopting. now rewrite HT.
  - intros self T HT.
    rewrite (upload_refuses self h filename T hdr) by (assumption || congruence).
    now rewrite Hnone.
Qed.

(** The first upload of an image that declares a template [T] into a
    session without one: the bitstream is streamed to the programming
    device and the session adopts [T]. *)
Theorem upload_adopts_template (self : LocalPcieTransport) (h : host)
  (filename T : string) (hdr : fpg_header) (header bitstream : list byte)
  (md5 : string) :
  Py.str_endswith filename ".fpg" = true ->
  fpg_template self = None ->
  parse_fpg filename = Return hdr ->
  first_section_template hdr = Some T ->
  extract filename (self, h) = (Return (header, bitstream, md5), (self, h)) ->
  upload filename (self, h)
  = (Return true,
     (with_template self (Some T), after_streaming h (_axid_dev self) bitstream)).
Proof.
  intros Hext HT Hparse Htag Hextract.
  rewrite (upload_streams self h filename hdr header bitstream md5) by auto.
  rewrite Htag. unfold adopting. now rewrite HT.
Qed.

(** An upload whose image declares the template the session holds: the
    bitstream is streamed and the session is as it was. *)
Theorem upload_matching_template (self : LocalPcieTransport) (h : host)
  (filename T : string) (hdr : fpg_header) (header bitstream : list byte)
  (md5 : string) :
  Py.str_endswith filename ".fpg" = true ->
  fpg_template self = Some T ->
  parse_fpg filename = Return hdr ->
  first_section_template hdr = Some T ->
  extract filename (self, h) = (Return (header, bitstream, md5), (self, h)) ->
  upload filename (self, h)
  = (Return true, (self, after_streaming h (_axid_dev self) bitstream)).
Proof.
  intros Hext HT Hparse Htag Hextract.
  rewrite (upload_streams self h filename hdr header bitstream md5)
    by (auto || (right; congruence)).
  unfold adopting. now rewrite HT.
Qed.

End UploadClaims.

Example extract_pads_sections_witness :
  let w := (card0, image_host small_image) in
  _extract_bitstream zlib_rejects no_digest "image.fpg" w
  = (Return (([x23; x21] ++ sentinel) ++ Py.bytes_mul pad_byte 1015,
             [x01; x02; x03; x04] ++ Py.bytes_mul pad_byte 1020,
             no_digest small_image), w)
  /\ Z.of_nat (length (([x23; x21] ++ sentinel) ++ Py.bytes_mul pad_byte 1015))
     = 1024
  /\ Z.of_nat (length ([x01; x02; x03; x04] ++ Py.bytes_mul pad_byte 1020))
     = 1024.
Proof.
  destruct (extract_pads_sections zlib_rejects no_digest
              (card0, image_host small_image) "image.fpg"
              [x23; x21] [x01; x02; x03; x04])
    as (padded_header & program & Hrun & Hheader & Hprogram).
  - reflexivity.
  - intros i Hi. destruct i as [|[|i]]; [reflexivity | reflexivity |].
    simpl in Hi. lia.
  - reflexivity.
  - destruct Hheader as [-> Hlh]; [vm_compute; discriminate|].
    destruct Hprogram as [-> Hlp]; [vm_compute; discriminate|].
    split; [exact Hrun|]. split; [exact Hlh | exact Hlp].
Defined.

(** C3 as stated fails when a section's length is a multiple of 1024: a
    payload of 1024 bytes comes back as 2048 bytes, a whole block of
    [b"0"] appended, where [ceil(L/1024)*1024] is 1024. *)
Example extract_pads_full_block :
  let payload := Py.bytes_mul x5a 1024 in
  let w := (card0, image_host (sentinel ++ payload)) in
  fst (_extract_bitstream zlib_rejects no_digest "image.fpg" w)
  = Return (sentinel ++ Py.bytes_mul pad_byte 1017,
            payload ++ Py.bytes_mul pad_byte 1024,
            EmptyString)
  /\ Z.of_nat (length (payload ++ Py.bytes_mul pad_byte 1024)) = 2048
  /\ ceil_div 1024 1024 * 1024 = 1024.
Proof. vm_compute. repeat split. Qed.

Example extract_without_sentinel_witness :
  let w := (card0, image_host hello_world) in
  header_offset hello_world = 6
  /\ _extract_bitstream zlib_rejects no_digest "image.fpg" w
     = (Return ([x68; x65; x6c; x6c; x6f; x20] ++ Py.bytes_mul pad_byte 1018,
                [x77; x6f; x72; x6c; x64] ++ Py.bytes_mul pad_byte 1019,
                no_digest hello_world), w).
Proof.
  apply (extract_without_sentinel zlib_rejects no_digest
           (card0, image_host hello_world) "image.fpg" hello_world).
  - reflexivity.
  - intros i. do 11 (destruct i as [|i]; [reflexivity|]).
    destruct i; reflexivity.
  - reflexivity.
Defined.

Example upload_template_mismatch_witness :
  let w := (locked_card "vcu118", image_host small_image) in
  let after :=
    upload_to_ram_and_program (tagged_parser "au50") zlib_rejects no_digest
      "image.fpg" w in
  fst after = Raise (RuntimeError (TemplateMismatch (Some "vcu118"%string)
                                     (Some "au50"%string)))
  /\ streamed (snd (snd after)) = []
  /\ fpg_template (fst (snd after)) = Some "vcu118"%string
  /\ snd after = w.
Proof.
  apply (upload_template_mismatch (tagged_parser "au50") zlib_rejects no_digest
           (locked_card "vcu118") (image_host small_image) "image.fpg" "vcu118"
           [("77777"%string, [("pr_template"%string, "au50"%string)])]).
  - reflexivity.
  - reflexivity.
  - reflexivity.
  - discriminate.
Defined.

Example upload_untagged_image_witness :
  _parse_template_meta untagged_parser "image.fpg" (card0, image_host small_image)
  = (Return None, (card0, image_host small_image))
  /\ upload_to_ram_and_program untagged_parser zlib_rejects no_digest
       "image.fpg" (card0, image_host small_image)
     = (Return true,
        (card0, after_streaming (image_host small_image) "/dev/xdma0_h2c_1"
                  ([x01; x02; x03; x04] ++ Py.bytes_mul pad_byte 1020)))
  /\ upload_to_ram_and_program untagged_parser zlib_rejects no_digest
       "image.fpg" (locked_card "vcu118", image_host small_image)
     = (Raise (RuntimeError (TemplateMismatch (Some "vcu118"%string) None)),
        (locked_card "vcu118", image_host small_image)).
Proof.
  destruct (upload_untagged_image untagged_parser zlib_rejects no_digest
              (image_host small_image) "image.fpg"
              [("77777"%string, [("builddate"%string, "2020"%string)])])
    as (Hmeta & Hfresh & Hlocked).
  - reflexivity.
  - right. eexists _, _, _. split; reflexivity.
  - reflexivity.
  - split; [apply Hmeta|]. split.
    + apply (Hfresh card0 (([x23; x21] ++ sentinel) ++ Py.bytes_mul pad_byte 1015)
               _ EmptyString eq_refl).
      reflexivity.
    + apply (Hlocked (locked_card "vcu118") "vcu118"%string eq_refl).
Defined.

(** C10 as stated fails when the metadata parser itself raises: its call
    is outside the [try], so template recovery raises too instead of
    returning [None]. *)
Example parse_error_is_not_caught :
  _parse_template_meta failing_parser "image.fpg" (card0, image_host hello_world)
  = (Raise (RuntimeError (Text "does not look like an fpg file we can parse")),
     (card0, image_host hello_world)).
Proof. reflexivity. Qed.

Example upload_adopts_template_witness :
  upload_to_ram_and_program (tagged_parser "au50") zlib_rejects no_digest
    "image.fpg" (card0, image_host small_image)
  = (Return true,
     (with_template card0 (Some "au50"%string),
      after_streaming (image_host small_image) "/dev/xdma0_h2c_1"
        ([x01; x02; x03; x04] ++ Py.bytes_mul pad_byte 1020))).
Proof.
  apply (upload_adopts_template (tagged_parser "au50") zlib_rejects no_digest
           card0 (image_host small_image) "image.fpg" "au50"
           [("77777"%string, [("pr_template"%string, "au50"%string)])]
           (([x23; x21] ++ sentinel) ++ Py.bytes_mul pad_byte 1015)
           _ EmptyString); reflexivity.
Defined.

Example upload_matching_template_witness :
  upload_to_ram_and_program (tagged_parser "au50") zlib_rejects no_digest
    "image.fpg" (locked_card "au50", image_host small_image)
  = (Return true,
     (locked_card "au50",
      after_streaming (image_host small_image) "/dev/xdma0_h2c_1"
        ([x01; x02; x03; x04] ++ Py.bytes_mul pad_byte 1020))).
Proof.
  apply (upload_matching_template (tagged_parser "au50") zlib_rejects no_digest
           (locked_card "au50") (image_host small_image) "image.fpg" "au50"
           [("77777"%string, [("pr_template"%string, "au50"%string)])]
           (([x23; x21] ++ sentinel) ++ Py.bytes_mul pad_byte 1015)
           _ EmptyString); reflexivity.
Defined.

Example extract_pads_every_length_witness :
  let payload := Py.bytes_mul x5a 1024 in
  let w := (card0, image_host (([] ++ sentinel) ++ payload)) in
  _extract_bitstream zlib_rejects no_digest "image.fpg" w
  = (Return (([] ++ sentinel) ++ Py.bytes_mul pad_byte 1017,
             payload ++ Py.bytes_mul pad_byte 1024,
             EmptyString), w).
Proof.
  apply (extract_pads_every_length zlib_rejects no_digest
           (card0, image_host (([] ++ sentinel) ++ Py.bytes_mul x5a 1024))
           "image.fpg" [] (Py.bytes_mul x5a 1024)).
  - reflexivity.
  - intros i Hi. simpl in Hi. lia.
  - reflexivity.
Defined.

(** * Further properties of the code *)

(** ** RegisterWindow: edges and frames *)

Section WindowEdges.

Lemma adjust_index_bounds (N x : Z) : 0 <= N -> 0 <= Py.adjust_index N x <= N.
Proof.
  intros HN. unfold Py.adjust_index. destruct (Z.ltb_spec x 0); lia.
Qed.

Lemma slice_stays_inside (N a b : Z) :
  0 <= N -> Py.adjust_index N a + Py.slicelength N a b <= N.
Proof.
  intros HN. unfold Py.slicelength.
  pose proof (adjust_index_bounds N a HN). pose proof (adjust_index_bounds N b HN).
  lia.
Qed.

Lemma slicelength_at_most (N a size : Z) :
  0 <= N -> 0 <= size -> Py.slicelength N a (a + size) <= size.
Proof.
  intros HN Hs. unfold Py.slicelength, Py.adjust_index.
  destruct (Z.ltb_spec a 0), (Z.ltb_spec (a + size) 0); lia.
Qed.

Lemma adjust_clipped (N a size : Z) :
  0 <= a <= N -> 0 <= size ->
  Py.adjust_index N a = a
  /\ Py.slicelength N a (a + size) = Z.min size (N - a).
Proof.
  intros Ha Hs. unfold Py.slicelength, Py.adjust_index.
  destruct (Z.ltb_spec a 0), (Z.ltb_spec (a + size) 0); lia.
Qed.

Lemma adjust_wrapped (N a size : Z) :
  - N <= a -> 0 <= size -> a + size < 0 ->
  Py.adjust_index N a = a + N /\ Py.slicelength N a (a + size) = size.
Proof.
  intros Ha Hs Hneg. unfold Py.slicelength, Py.adjust_index.
  destruct (Z.ltb_spec a 0), (Z.ltb_spec (a + size) 0); lia.
Qed.

(** The two outcomes of address resolution. *)
Lemma get_device_address_cases (dev : device) (w : world) :
  (exists a, _get_device_address dev w = (Return a, w))
  \/ (unresolvable (fst w) dev
      /\ _get_device_address dev w = (Raise (not_found dev), w)).
Proof.
  unfold _get_device_address, bind, gets, unresolvable, not_found. simpl.
  destruct dev as [name|a].
  - destruct (memory_devices (fst w) !! name) as [address|] eqn:E.
    + left. now exists address.
    + right. split; reflexivity.
  - destruct (Z.leb_spec 0 a), (Z.ltb_spec a (2 ^ 32)); simpl.
    + left. now exists a.
    + right. split; [now right | reflexivity].
    + right. split; [now left | reflexivity].
    + right. split; [now left | reflexivity].
Qed.

Lemma get_device_address_unresolvable (dev : device) (w : world) :
  unresolvable (fst w) dev ->
  _get_device_address dev w = (Raise (not_found dev), w).
Proof.
  intros Hun. destruct (get_device_address_cases dev w) as [[a Ha]|[_ H]];
    [|exact H].
  exfalso. revert Ha Hun.
  unfold _get_device_address, bind, gets, unresolvable. simpl.
  destruct dev as [name|b].
  - intros Ha Hnone. rewrite Hnone in Ha. discriminate.
  - destruct (Z.leb_spec 0 b), (Z.ltb_spec b (2 ^ 32)); simpl;
      intros Ha Hout; (discriminate || lia).
Qed.

(** [read] changes nothing, whatever it is asked. It raises only when the
    device cannot be found, and what it returns is never longer than the
    window, nor than the size asked for when that is not negative. *)
Theorem read_changes_nothing (w : world) (dev : device) (size offset : Z) :
  snd (read dev size offset w) = w
  /\ match fst (read dev size offset w) with
     | Return out =>
         Z.of_nat (length out) <= MAP_SIZE
         /\ (0 <= size -> Z.of_nat (length out) <= size)
     | Raise e => e = not_found dev /\ unresolvable (fst w) dev
     end.
Proof.
  destruct (get_device_address_cases dev w) as [[a Ha]|[Hun Ha]].
  - rewrite (read_returns w dev a size offset Ha). cbn [fst snd].
    split; [reflexivity|].
    unfold mmap_getslice. rewrite length_fmap, length_seqZ.
    set (addr := a - AXIL_PCI_ADDR_TRANSLATION + offset).
    pose proof MAP_SIZE_pos as HN.
    pose proof (slice_stays_inside MAP_SIZE addr (addr + size) ltac:(lia)).
    pose proof (adjust_index_bounds MAP_SIZE addr ltac:(lia)).
    assert (0 <= Py.slicelength MAP_SIZE addr (addr + size))
      by (unfold Py.slicelength; lia).
    split; [lia|]. intros Hs.
    pose proof (slicelength_at_most MAP_SIZE addr size ltac:(lia) Hs). lia.
  - unfold read, bind. rewrite Ha. cbn [fst snd]. auto.
Qed.

(** A read that starts inside the window and runs past its end is cut at
    the end: it returns [min(size, MAP_SIZE - addr)] bytes, and no error. *)
Theorem read_clips_to_window (w : world) (dev : device) (a size offset : Z) :
  let addr := a - AXIL_PCI_ADDR_TRANSLATION + offset in
  _get_device_address dev w = (Return a, w) ->
  0 <= size -> 0 <= addr <= MAP_SIZE ->
  read dev size offset w
  = (Return (axil_mm (fst w) <$> seqZ addr (Z.min size (MAP_SIZE - addr))), w).
Proof.
  intros addr Hdev Hsize Haddr.
  rewrite (read_returns _ _ a) by assumption. fold addr. unfold mmap_getslice.
  destruct (adjust_clipped MAP_SIZE addr size) as [-> ->]; (lia || reflexivity).
Qed.

(** A negative logical address, which a negative offset gives, is not
    refused: it counts from the end of the window. A read at [addr] with
    [-MAP_SIZE <= addr] and [addr + size < 0] returns the [size] bytes at
    [MAP_SIZE + addr]. *)
Theorem read_negative_address_wraps (w : world) (dev : device)
  (a size offset : Z) :
  let addr := a - AXIL_PCI_ADDR_TRANSLATION + offset in
  _get_device_address dev w = (Return a, w) ->
  0 <= size -> - MAP_SIZE <= addr -> addr + size < 0 ->
  read dev size offset w
  = (Return (axil_mm (fst w) <$> seqZ (MAP_SIZE + addr) size), w).
Proof.
  intros addr Hdev Hsize Hlo Hneg.
  rewrite (read_returns _ _ a) by assumption. fold addr. unfold mmap_getslice.
  destruct (adjust_wrapped MAP_SIZE addr size) as [-> ->]; try lia.
  now rewrite Z.add_comm.
Qed.

(** So does a write: an aligned payload written at such an address lands
    at [MAP_SIZE + addr], at the end of the window. *)
Theorem blindwrite_negative_address_wraps (w : world) (dev : device)
  (a : Z) (data : list byte) (offset : Z) :
  let size := Z.of_nat (length data) in
  let addr := a - AXIL_PCI_ADDR_TRANSLATION + offset in
  _get_device_address dev w = (Return a, w) ->
  size mod 4 = 0 -> offset mod 4 = 0 ->
  - MAP_SIZE <= addr -> addr + size < 0 ->
  exists w',
    blindwrite dev (Bytes data) offset w = (Return tt, w')
    /\ same_state w'
         (with_mm w (store (axil_mm (fst w)) (MAP_SIZE + addr) size data)).
Proof.
  intros size addr Hdev Hsize Hoff Hlo Hneg.
  destruct (adjust_wrapped MAP_SIZE addr size) as [Ei En]; try (unfold size; lia).
  destruct (blindwrite_stores w dev data offset a Hsize Hoff Hdev En)
    as (fin & Hrun & Hfin).
  exists (with_mm w fin). split; [exact Hrun|].
  apply with_mm_same_state. fold addr size in Hfin. rewrite Ei in Hfin.
  now rewrite Z.add_comm.
Qed.

End WindowEdges.

Example read_clips_to_window_witness :
  read (DevAddr (MAP_SIZE - 3)) 8 0 world0 = (Return [x00; x00; x00], world0).
Proof.
  apply (read_clips_to_window world0 (DevAddr (MAP_SIZE - 3)) (MAP_SIZE - 3) 8 0);
    vm_compute; (reflexivity || (split; discriminate) || discriminate).
Defined.

Example read_negative_address_wraps_witness :
  read (DevAddr 0) 4 (-8) world0
  = (Return (blank <$> seqZ (MAP_SIZE + -8) 4), world0).
Proof.
  apply (read_negative_address_wraps world0 (DevAddr 0) 0 4 (-8));
    vm_compute; (reflexivity || discriminate).
Defined.

Example blindwrite_negative_address_wraps_witness :
  exists w',
    blindwrite (DevAddr 0) (Bytes [x01; x02; x03; x04]) (-8) world0
    = (Return tt, w')
    /\ same_state w'
         (with_mm world0 (store blank (MAP_SIZE + -8) 4 [x01; x02; x03; x04])).
Proof.
  apply (blindwrite_negative_address_wraps world0 (DevAddr 0) 0
           [x01; x02; x03; x04] (-8));
    vm_compute; (reflexivity || discriminate).
Defined.

Section WindowFrames.

(** A negative size is not refused either: the end of the range then
    counts from the end of the window, so that [read(dev, -1)] at the base
    returns all of the window but its last byte. *)
Theorem read_negative_size (w : world) (dev : device) (a size offset : Z) :
  let addr := a - AXIL_PCI_ADDR_TRANSLATION + offset in
  _get_device_address dev w = (Return a, w) ->
  0 <= addr <= MAP_SIZE -> addr + size < 0 ->
  read dev size offset w
  = (Return (axil_mm (fst w) <$> seqZ addr (Z.max (MAP_SIZE + size) 0)), w).
Proof.
  intros addr Hdev Haddr Hneg.
  rewrite (read_returns _ _ a) by assumption. fold addr. unfold mmap_getslice.
  assert (E : Py.adjust_index MAP_SIZE addr = addr
              /\ Py.slicelength MAP_SIZE addr (addr + size)
                 = Z.max (MAP_SIZE + size) 0).
  { unfold Py.slicelength, Py.adjust_index.
    destruct (Z.ltb_spec addr 0), (Z.ltb_spec (addr + size) 0); lia. }
  destruct E as [-> ->]. reflexivity.
Qed.

(** The two outcomes of one slice assignment. *)
Lemma assign_axil_mm_outcome (w : world) (cur : mmap) (start stop : Z)
  (value : list byte) :
  assign_axil_mm start stop value (with_mm w cur)
  = if Z.of_nat (length value) =? Py.slicelength MAP_SIZE start stop
    then (Return tt,
          with_mm w (store cur (Py.adjust_index MAP_SIZE start)
                       (Py.slicelength MAP_SIZE start stop) value))
    else (Raise wrong_size, with_mm w cur).
Proof.
  unfold assign_axil_mm, bind, gets, lift, mmap_setslice. simpl.
  destruct (Z.of_nat (length value) =? Py.slicelength MAP_SIZE start stop);
    reflexivity.
Qed.

Lemma store_outside (mm : mmap) (start stop : Z) (value : list byte) (k : Z) :
  k < 0 \/ MAP_SIZE <= k ->
  store mm (Py.adjust_index MAP_SIZE start)
    (Py.slicelength MAP_SIZE start stop) value k = mm k.
Proof.
  intros Hk. unfold store. pose proof MAP_SIZE_pos.
  pose proof (adjust_index_bounds MAP_SIZE start ltac:(lia)).
  pose proof (slice_stays_inside MAP_SIZE start stop ltac:(lia)).
  destruct (Z.leb_spec (Py.adjust_index MAP_SIZE start) k),
    (Z.ltb_spec k (Py.adjust_index MAP_SIZE start
                   + Py.slicelength MAP_SIZE start stop)); simpl;
    (reflexivity || lia).
Qed.

(** Whatever the loop does, and however it ends, it changes the mapping
    only, and that only inside the window. *)
Lemma write_chunks_frame (w : world) (addr size : Z) (data : list byte) :
  forall (iters : nat) (written : Z) (cur : mmap),
  exists fin,
    snd (write_chunks iters addr size data written (with_mm w cur))
    = with_mm w fin
    /\ forall k, k < 0 \/ MAP_SIZE <= k -> fin k = cur k.
Proof.
  induction iters as [|iters IH]; intros written cur.
  - exists cur. split; reflexivity.
  - cbn [write_chunks]. set (n := Z.min (size - written) block_size).
    unfold bind at 1. destruct (0 <? n).
    + rewrite assign_axil_mm_outcome.
      destruct (Z.of_nat (length (Py.slice data written (written + n)))
                =? Py.slicelength MAP_SIZE (addr + written) (addr + written + n)).
      * destruct (IH (written + n)
                    (store cur (Py.adjust_index MAP_SIZE (addr + written))
                       (Py.slicelength MAP_SIZE (addr + written)
                          (addr + written + n))
                       (Py.slice data written (written + n))))
          as (fin & Hrun & Hfin).
        exists fin. split; [exact Hrun|].
        intros k Hk. rewrite (Hfin k Hk). now apply store_outside.
      * exists cur. split; reflexivity.
    + unfold ret at 1. apply IH.
Qed.

(** [blindwrite] changes nothing but the mapping, whatever it is given and
    whether it returns or raises: the template, the device table, the
    paths and the host are as they were. And it stores nothing outside the
    window. *)
Theorem blindwrite_touches_window_only (w : world) (dev : device)
  (data : payload) (offset : Z) :
  exists mm',
    snd (blindwrite dev data offset w) = with_mm w mm'
    /\ forall k, k < 0 \/ MAP_SIZE <= k -> mm' k = axil_mm (fst w) k.
Proof.
  assert (Hstay : exists mm', w = with_mm w mm'
                    /\ forall k, k < 0 \/ MAP_SIZE <= k -> mm' k = axil_mm (fst w) k).
  { exists (axil_mm (fst w)). split; [now rewrite world_with_own_mm | reflexivity]. }
  unfold blindwrite.
  destruct (len data) as [size|e]; [|exact Hstay]. rewrite bind_lift.
  destruct (is_bytes data); [|exact Hstay]. rewrite bind_assert_true.
  destruct (size mod 4 =? 0); [|exact Hstay]. rewrite bind_assert_true.
  destruct (offset mod 4 =? 0); [|exact Hstay]. rewrite bind_assert_true.
  destruct (get_device_address_cases dev w) as [[a Ha]|[_ Ha]].
  - returns_by Ha.
    destruct (write_chunks_frame w (a - AXIL_PCI_ADDR_TRANSLATION + offset)
                size (as_bytes data)
                (Z.to_nat (size / block_size + 1)) 0 (axil_mm (fst w)))
      as (fin & Hrun & Hfin).
    rewrite world_with_own_mm in Hrun. now exists fin.
  - unfold bind. rewrite Ha. exact Hstay.
Qed.

(** A device that cannot be found stops both operations with the
    [ValueError] that names it, before the window is touched. *)
Theorem unknown_device_is_refused (w : world) (dev : device) (size offset : Z)
  (data : list byte) :
  unresolvable (fst w) dev ->
  read dev size offset w = (Raise (not_found dev), w)
  /\ (Z.of_nat (length data) mod 4 = 0 -> offset mod 4 = 0 ->
      blindwrite dev (Bytes data) offset w = (Raise (not_found dev), w)).
Proof.
  intros Hun. pose proof (get_device_address_unresolvable dev w Hun) as Ha.
  split.
  - unfold read, bind. now rewrite Ha.
  - intros Hsize Hoff. unfold blindwrite. cbn [len]. rewrite bind_lift.
    cbv beta. cbn [is_bytes].
    rewrite Hsize, Hoff. cbn [Z.eqb]. rewrite !bind_assert_true.
    unfold bind. now rewrite Ha.
Qed.

(** The probe [is_connected] never answers [False] on a mapped window:
    address 0 always resolves and a slice of the mapping never raises, so
    the [except] branch is not taken. It answers [True] when each default
    is given or is an attribute of the instance, and otherwise leaves with
    the [AttributeError] of the lookup, which is outside the [try]. The
    world is as it was in every case. *)
Theorem is_connected_never_false (attrs : fallbacks) (timeout retries : option Z)
  (w : world) :
  is_connected attrs timeout retries w
  = (match timeout, attr_timeout attrs with
     | None, None => Raise (AttributeError "timeout")
     | _, _ =>
         match retries, attr_retries attrs with
         | None, None => Raise (AttributeError "retries")
         | _, _ => Return true
         end
     end, w).
Proof.
  unfold is_connected, or_attribute.
  assert (Ha : _get_device_address (DevAddr AXIL_PCI_ADDR_TRANSLATION) w
               = (Return AXIL_PCI_ADDR_TRANSLATION, w)) by reflexivity.
  pose proof (read_returns w _ _ 4 0 Ha) as Hread.
  destruct timeout, (attr_timeout attrs), retries, (attr_retries attrs);
    unfold bind, ret, raise; try reflexivity; now rewrite Hread.
Qed.

(** An empty payload is accepted at any aligned offset of any device that
    resolves, inside the window or not: no assignment is made and the
    world is as it was. *)
Theorem blindwrite_empty (w : world) (dev : device) (a offset : Z) :
  _get_device_address dev w = (Return a, w) ->
  offset mod 4 = 0 ->
  blindwrite dev (Bytes []) offset w = (Return tt, w).
Proof.
  intros Hdev Hoff. unfold blindwrite. cbn [len]. rewrite bind_lift.
  cbv beta. cbn [is_bytes as_bytes length].
  rewrite Hoff. cbn [Z.of_nat Z.modulo Z.eqb]. rewrite !bind_assert_true.
  returns_by Hdev. reflexivity.
Qed.

End WindowFrames.

Example read_negative_size_witness :
  read (DevAddr 0) (-1) 0 world0
  = (Return (blank <$> seqZ 0 (Z.max (MAP_SIZE + -1) 0)), world0).
Proof.
  apply (read_negative_size world0 (DevAddr 0) 0 (-1) 0);
    vm_compute; (reflexivity || (split; discriminate) || discriminate).
Defined.

Example unknown_device_is_refused_witness :
  read (DevName "missing") 4 0 world0
  = (Raise (ValueError "Could not find device: missing"), world0)
  /\ blindwrite (DevName "missing") (Bytes [x01; x02; x03; x04]) 0 world0
     = (Raise (ValueError "Could not find device: missing"), world0).
Proof.
  destruct (unknown_device_is_refused world0 (DevName "missing") 4 0
              [x01; x02; x03; x04]) as [Hread Hwrite].
  - reflexivity.
  - split; [exact Hread | apply Hwrite; reflexivity].
Defined.

Example blindwrite_empty_witness :
  blindwrite (DevAddr (2 ^ 32 - 4)) (Bytes []) 0 world0 = (Return tt, world0).
Proof.
  apply (blindwrite_empty world0 (DevAddr (2 ^ 32 - 4)) (2 ^ 32 - 4) 0);
    reflexivity.
Defined.

Section WindowComposition.

Lemma store_same_bytes (mm mm' : mmap) (i n : Z) (value : list byte) :
  same_bytes mm mm' -> same_bytes (store mm i n value) (store mm' i n value).
Proof.
  intros H k. unfold store.
  destruct ((i <=? k) && (k <? i + n)); [reflexivity | apply H].
Qed.

(** A write leaves alone what it does not cover: after a write within the
    window, a read of any range of the window that does not overlap the
    written one returns what it returned before. *)
Theorem write_leaves_other_ranges (w : world) (dev dev2 : device)
  (a a2 : Z) (data : list byte) (offset size2 offset2 : Z) :
  let size := Z.of_nat (length data) in
  let addr := a - AXIL_PCI_ADDR_TRANSLATION + offset in
  let addr2 := a2 - AXIL_PCI_ADDR_TRANSLATION + offset2 in
  _get_device_address dev w = (Return a, w) ->
  _get_device_address dev2 w = (Return a2, w) ->
  size mod 4 = 0 -> offset mod 4 = 0 ->
  0 <= addr -> addr + size <= MAP_SIZE ->
  0 <= size2 -> 0 <= addr2 -> addr2 + size2 <= MAP_SIZE ->
  addr2 + size2 <= addr \/ addr + size <= addr2 ->
  exists w',
    blindwrite dev (Bytes data) offset w = (Return tt, w')
    /\ read dev2 size2 offset2 w' = (fst (read dev2 size2 offset2 w), w').
Proof.
  intros size addr addr2 Hdev Hdev2 Hsize Hoff Hlo Hhi Hs2 Hlo2 Hhi2 Hapart.
  destruct (adjust_in_range MAP_SIZE addr size) as [Ei En]; try (unfold size; lia).
  destruct (blindwrite_stores w dev data offset a Hsize Hoff Hdev En)
    as (fin & Hrun & Hfin).
  exists (with_mm w fin). split; [exact Hrun|].
  rewrite (read_returns _ _ a2 size2 offset2 (get_device_address_with_mm _ _ _ fin Hdev2)).
  rewrite (read_returns _ _ a2 size2 offset2 Hdev2).
  cbn [fst with_mm axil_mm]. fold addr2. f_equal. f_equal.
  unfold mmap_getslice.
  destruct (adjust_in_range MAP_SIZE addr2 size2) as [-> ->]; try lia.
  apply list_fmap_ext. intros i k Hk.
  apply lookup_seqZ in Hk as [-> Hi].
  rewrite Hfin. fold addr size. rewrite Ei. unfold store.
  destruct (Z.leb_spec addr (addr2 + Z.of_nat i)),
    (Z.ltb_spec (addr2 + Z.of_nat i) (addr + size)); simpl;
    (reflexivity || lia).
Qed.

Lemma store_append (mm : mmap) (i : Z) (d1 d2 : list byte) :
  let n1 := Z.of_nat (length d1) in
  let n2 := Z.of_nat (length d2) in
  same_bytes (store (store mm i n1 d1) (i + n1) n2 d2)
             (store mm i (n1 + n2) (d1 ++ d2)).
Proof.
  intros n1 n2 k. unfold store.
  destruct (Z.leb_spec (i + n1) k), (Z.ltb_spec k (i + n1 + n2)); simpl.
  - destruct (Z.leb_spec i k), (Z.ltb_spec k (i + (n1 + n2))); try lia. simpl.
    rewrite app_nth2 by (unfold n1 in *; lia). f_equal. unfold n1 in *. lia.
  - destruct (Z.leb_spec i k), (Z.ltb_spec k (i + n1)),
      (Z.ltb_spec k (i + (n1 + n2))); simpl; try lia; reflexivity.
  - destruct (Z.leb_spec i k), (Z.ltb_spec k (i + n1)),
      (Z.ltb_spec k (i + (n1 + n2))); simpl; try lia; try reflexivity.
    apply eq_sym, app_nth1. unfold n1 in *. lia.
  - destruct (Z.leb_spec i k), (Z.ltb_spec k (i + n1)),
      (Z.ltb_spec k (i + (n1 + n2))); simpl; try lia; try reflexivity.
Qed.

(** Writes compose: within the window, writing [d1] and then [d2] right
    behind it leaves the same state as writing [d1 ++ d2] at once. *)
Theorem blindwrite_appends (w : world) (dev : device) (a : Z)
  (d1 d2 : list byte) (offset : Z) :
  let n1 := Z.of_nat (length d1) in
  let n2 := Z.of_nat (length d2) in
  let addr := a - AXIL_PCI_ADDR_TRANSLATION + offset in
  _get_device_address dev w = (Return a, w) ->
  n1 mod 4 = 0 -> n2 mod 4 = 0 -> offset mod 4 = 0 ->
  0 <= addr -> addr + n1 + n2 <= MAP_SIZE ->
  exists w1 w2 w12,
    blindwrite dev (Bytes d1) offset w = (Return tt, w1)
    /\ blindwrite dev (Bytes d2) (offset + n1) w1 = (Return tt, w2)
    /\ blindwrite dev (Bytes (d1 ++ d2)) offset w = (Return tt, w12)
    /\ same_state w2 w12.
Proof.
  intros n1 n2 addr Hdev H1 H2 Hoff Hlo Hhi.
  assert (Hn1 : 0 <= n1) by (unfold n1; lia).
  assert (Hn2 : 0 <= n2) by (unfold n2; lia).
  destruct (adjust_in_range MAP_SIZE addr n1) as [Ei1 En1]; try lia.
  destruct (blindwrite_stores w dev d1 offset a H1 Hoff Hdev En1)
    as (fin1 & Hrun1 & Hfin1).
  fold addr n1 in Hfin1. rewrite Ei1 in Hfin1.
  assert (Hoff2 : (offset + n1) mod 4 = 0)
    by (rewrite Z.add_mod, Hoff, H1 by lia; reflexivity).
  destruct (adjust_in_range MAP_SIZE (addr + n1) n2) as [Ei2 En2]; try lia.
  assert (Eaddr : a - AXIL_PCI_ADDR_TRANSLATION + (offset + n1) = addr + n1)
    by (unfold addr; lia).
  destruct (blindwrite_stores (with_mm w fin1) dev d2 (offset + n1) a H2 Hoff2
              (get_device_address_with_mm _ _ _ fin1 Hdev))
    as (fin2 & Hrun2 & Hfin2).
  { rewrite Eaddr. exact En2. }
  rewrite Eaddr in Hfin2. fold n2 in Hfin2. rewrite Ei2 in Hfin2.
  cbn [fst with_mm axil_mm] in Hfin2.
  assert (H12 : Z.of_nat (length (d1 ++ d2)) = n1 + n2)
    by (rewrite length_app; unfold n1, n2; lia).
  assert (Hsize12 : Z.of_nat (length (d1 ++ d2)) mod 4 = 0)
    by (rewrite H12, Z.add_mod, H1, H2 by lia; reflexivity).
  destruct (adjust_in_range MAP_SIZE addr (n1 + n2)) as [Ei En]; try lia.
  destruct (blindwrite_stores w dev (d1 ++ d2) offset a Hsize12 Hoff Hdev)
    as (fin & Hrun & Hfin).
  { fold addr. rewrite H12. exact En. }
  fold addr in Hfin. rewrite H12, Ei in Hfin.
  exists (with_mm w fin1), (with_mm w fin2), (with_mm w fin).
  split; [exact Hrun1|]. split; [exact Hrun2|]. split; [exact Hrun|].
  apply with_mm_same_state. intros k.
  rewrite Hfin2, Hfin.
  transitivity (store (store (axil_mm (fst w)) addr n1 d1) (addr + n1) n2 d2 k).
  - now apply store_same_bytes.
  - apply (store_append (axil_mm (fst w)) addr d1 d2 k).
Qed.

End WindowComposition.

Example write_leaves_other_ranges_witness :
  exists w',
    blindwrite (DevAddr 8) (Bytes [x01; x02; x03; x04]) 0 world0 = (Return tt, w')
    /\ read (DevAddr 3) 5 0 w' = (Return [x00; x00; x00; x00; x00], w').
Proof.
  apply (write_leaves_other_ranges world0 (DevAddr 8) (DevAddr 3) 8 3
           [x01; x02; x03; x04] 0 5 0);
    vm_compute; (reflexivity || discriminate || (left; discriminate)).
Defined.

Example blindwrite_appends_witness :
  exists w1 w2 w12,
    blindwrite (DevAddr 0) (Bytes [x01; x02; x03; x04]) 0 world0 = (Return tt, w1)
    /\ blindwrite (DevAddr 0) (Bytes [x05; x06; x07; x08]) (0 + 4) w1
       = (Return tt, w2)
    /\ blindwrite (DevAddr 0)
         (Bytes ([x01; x02; x03; x04] ++ [x05; x06; x07; x08])) 0 world0
       = (Return tt, w12)
    /\ same_state w2 w12.
Proof.
  apply (blindwrite_appends world0 (DevAddr 0) 0
           [x01; x02; x03; x04] [x05; x06; x07; x08] 0);
    vm_compute; (reflexivity || discriminate).
Defined.

Section WindowOverflow.

(** The loop on a payload that starts inside the window and runs past its
    end: [m] whole chunks still fit, then an assignment is refused. *)
Lemma write_chunks_overflow (w : world) (mm0 : mmap) (addr : Z)
  (data : list byte) :
  let size := Z.of_nat (length data) in
  let q := (MAP_SIZE - addr) / block_size in
  0 <= addr <= MAP_SIZE -> MAP_SIZE < addr + size ->
  forall (m iters : nat) (written : Z) (cur : mmap),
    written = block_size * (q - Z.of_nat m) -> 0 <= written ->
    (m < iters)%nat ->
    same_bytes cur (store mm0 addr written data) ->
    exists fin,
      write_chunks iters addr size data written (with_mm w cur)
      = (Raise wrong_size, with_mm w fin)
      /\ same_bytes fin (store mm0 addr (block_size * q) data).
Proof.
  intros size q Haddr Hover. unfold block_size in *.
  assert (Hq : 4096 * q <= MAP_SIZE - addr < 4096 * (q + 1)).
  { unfold q. pose proof (Z.div_mod (MAP_SIZE - addr) 4096 ltac:(lia)).
    pose proof (Z.mod_pos_bound (MAP_SIZE - addr) 4096 ltac:(lia)). lia. }
  clearbody q.
  induction m as [|m IH]; intros iters written cur Hw Hw0 Hit Hcur;
    (destruct iters as [|iters]; [lia|]);
    cbn [write_chunks]; unfold block_size;
    set (n := Z.min (size - written) 4096).
  - assert (Hn : 0 < n) by lia.
    destruct (Z.ltb_spec 0 n); [|lia].
    unfold bind at 1. rewrite assign_axil_mm_outcome.
    destruct (adjust_clipped MAP_SIZE (addr + written) n) as [_ En]; try lia.
    rewrite En.
    rewrite length_slice_inner by (unfold size in *; lia).
    replace (written + n - written) with n by lia.
    destruct (Z.eqb_spec n (Z.min n (MAP_SIZE - (addr + written)))) as [E|E];
      [lia|].
    exists cur. split; [reflexivity|].
    replace (4096 * q) with written by lia. exact Hcur.
  - assert (Hn : n = 4096) by lia.
    destruct (Z.ltb_spec 0 n); [|lia].
    unfold bind at 1. rewrite assign_axil_mm_outcome.
    destruct (adjust_in_range MAP_SIZE (addr + written) n) as [Ei En]; try lia.
    rewrite Ei, En.
    rewrite length_slice_inner by (unfold size in *; lia).
    replace (written + n - written) with n by lia. rewrite Z.eqb_refl.
    apply IH; try lia.
    apply store_chunk; (unfold size in *; lia) || assumption.
Qed.

(** A write that starts inside the window and runs past its end is not
    refused as a whole. It raises [IndexError], but only at the first
    chunk that does not fit: the whole chunks of 4096 bytes before it are
    in the mapping by then. *)
Theorem blindwrite_past_window (w : world) (dev : device) (a : Z)
  (data : list byte) (offset : Z) :
  let size := Z.of_nat (length data) in
  let addr := a - AXIL_PCI_ADDR_TRANSLATION + offset in
  let kept := block_size * ((MAP_SIZE - addr) / block_size) in
  _get_device_address dev w = (Return a, w) ->
  size mod 4 = 0 -> offset mod 4 = 0 ->
  0 <= addr <= MAP_SIZE -> MAP_SIZE < addr + size ->
  exists w',
    blindwrite dev (Bytes data) offset w = (Raise wrong_size, w')
    /\ same_state w' (with_mm w (store (axil_mm (fst w)) addr kept data)).
Proof.
  intros size addr kept Hdev Hsize Hoff Haddr Hover.
  set (q := (MAP_SIZE - addr) / block_size).
  assert (Hq0 : 0 <= q) by (apply Z.div_pos; unfold block_size; lia).
  assert (Hqs : q <= size / block_size)
    by (apply Z.div_le_mono; unfold block_size; lia).
  destruct (write_chunks_overflow w (axil_mm (fst w)) addr data Haddr Hover
              (Z.to_nat q) (Z.to_nat (size / block_size + 1)) 0
              (axil_mm (fst w)))
    as (fin & Hrun & Hfin).
  - fold q. rewrite Z2Nat.id by lia. lia.
  - lia.
  - lia.
  - intros k. unfold store.
    destruct (Z.leb_spec addr k), (Z.ltb_spec k (addr + 0)); simpl;
      (lia || reflexivity).
  - exists (with_mm w fin). split.
    + rewrite world_with_own_mm in Hrun.
      unfold blindwrite. cbn [len]. rewrite bind_lift. cbv beta.
    cbn [is_bytes as_bytes]. fold size.
      rewrite Hsize, Hoff. cbn [Z.eqb]. rewrite !bind_assert_true.
      returns_by Hdev. exact Hrun.
    + now apply with_mm_same_state.
Qed.

End WindowOverflow.

Example blindwrite_past_window_witness :
  exists w',
    blindwrite (DevAddr (MAP_SIZE - 8192)) (Bytes (Py.bytes_mul x5a 8196)) 0 world0
    = (Raise wrong_size, w')
    /\ same_state w'
         (with_mm world0
            (store blank (MAP_SIZE - 8192) 8192 (Py.bytes_mul x5a 8196))).
Proof.
  apply (blindwrite_past_window world0 (DevAddr (MAP_SIZE - 8192))
           (MAP_SIZE - 8192) (Py.bytes_mul x5a 8196) 0);
    vm_compute; (reflexivity || (split; discriminate) || discriminate).
Defined.

(** ** BitstreamExtractor: what the split keeps *)

Section SplitFacts.

Lemma startswith_length (b p : list byte) :
  Py.startswith b p = true -> (length p <= length b)%nat.
Proof.
  revert b. induction p as [|y p IH]; intros b H; simpl; [lia|].
  destruct b as [|x b]; simpl in H; [discriminate|].
  apply andb_true_iff in H as [_ H]. apply IH in H. simpl. lia.
Qed.

Lemma startswith_app_l (b p rest : list byte) :
  Py.startswith b p = true -> Py.startswith (b ++ rest) p = true.
Proof.
  revert b. induction p as [|y p IH]; intros b H; simpl; [reflexivity|].
  destruct b as [|x b]; simpl in H; [discriminate|].
  apply andb_true_iff in H as [Hx H]. simpl. rewrite Hx. now apply IH.
Qed.

(** [find] gives [-1] or the index of an occurrence that fits. *)
Lemma find_from_range (sub : list byte) :
  forall (b : list byte) (i : Z),
    Py.find_from b sub i = -1
    \/ (i <= Py.find_from b sub i
        /\ Py.find_from b sub i - i + Z.of_nat (length sub)
           <= Z.of_nat (length b)).
Proof.
  induction b as [|x b IH]; intros i.
  - simpl. destruct (Py.startswith [] sub) eqn:E; [|now left].
    right. apply startswith_length in E. simpl in *. lia.
  - cbn [Py.find_from]. destruct (Py.startswith (x :: b) sub) eqn:E.
    + right. apply startswith_length in E. lia.
    + destruct (IH (i + 1)) as [H|[H1 H2]]; [now left|].
      right. simpl length. lia.
Qed.

Lemma header_offset_range (fpg : list byte) :
  header_offset fpg = 6
  \/ (7 <= header_offset fpg <= Z.of_nat (length fpg)).
Proof.
  unfold header_offset, Py.find.
  destruct (find_from_range sentinel fpg 0) as [->|[H1 H2]]; [now left|].
  right. simpl length in H2. lia.
Qed.

Lemma slice_head {A} (l : list A) (n : Z) :
  0 <= n -> Py.slice l 0 n = take (Z.to_nat n) l.
Proof.
  intros Hn. unfold Py.slice. set (len := Z.of_nat (length l)).
  assert (E0 : Py.adjust_index len 0 = 0)
    by (unfold Py.adjust_index, len; simpl; lia).
  assert (E1 : Py.slicelength len 0 n = Z.min n len).
  { unfold Py.slicelength. rewrite E0. unfold Py.adjust_index, len.
    destruct (Z.ltb_spec n 0); lia. }
  rewrite E0, E1. change (Z.to_nat 0) with 0%nat. rewrite drop_0.
  destruct (Z.le_ge_cases n len).
  - f_equal. lia.
  - rewrite !take_ge by (unfold len in *; lia). reflexivity.
Qed.

Lemma slice_tail {A} (l : list A) (n : Z) :
  0 <= n -> Py.slice_from l n = drop (Z.to_nat n) l.
Proof.
  intros Hn. unfold Py.slice_from, Py.slice. set (len := Z.of_nat (length l)).
  assert (E0 : Py.adjust_index len n = Z.min n len)
    by (unfold Py.adjust_index; destruct (Z.ltb_spec n 0); lia).
  assert (E1 : Py.slicelength len n len = len - Z.min n len).
  { unfold Py.slicelength. rewrite E0. unfold Py.adjust_index, len.
    destruct (Z.ltb_spec (Z.of_nat (length l)) 0); lia. }
  rewrite E0, E1.
  destruct (Z.le_ge_cases n len).
  - rewrite take_ge by (rewrite length_drop; unfold len in *; lia).
    f_equal. lia.
  - rewrite (drop_ge l (Z.to_nat n)) by (unfold len in *; lia).
    rewrite drop_ge by (unfold len in *; lia). apply take_nil.
Qed.

(** The split adds padding and nothing else, for every file: the header
    is the first [header_offset] bytes, the program is what follows, the
    two together are the file, and each gets between 1 and 1024 bytes of
    [b"0"] behind it. *)
Theorem split_only_pads (fpg : list byte) :
  exists (head tail : list byte) (n1 n2 : Z),
    header fpg = head ++ Py.bytes_mul pad_byte n1
    /\ prog fpg = tail ++ Py.bytes_mul pad_byte n2
    /\ head ++ tail = fpg
    /\ Z.of_nat (length head) = Z.min (header_offset fpg) (Z.of_nat (length fpg))
    /\ 1 <= n1 <= 1024 /\ 1 <= n2 <= 1024.
Proof.
  set (ho := header_offset fpg).
  assert (Hho : 6 <= ho) by (destruct (header_offset_range fpg); lia).
  exists (take (Z.to_nat ho) fpg), (drop (Z.to_nat ho) fpg),
    (1024 - ho mod 1024), (1024 - (Z.of_nat (length fpg) - ho) mod 1024).
  split; [|split; [|split; [|split]]].
  - unfold header. fold ho. now rewrite slice_head by lia.
  - unfold prog. fold ho. now rewrite slice_tail by lia.
  - apply take_drop.
  - rewrite length_take. lia.
  - pose proof (Z.mod_pos_bound ho 1024 ltac:(lia)).
    pose proof (Z.mod_pos_bound (Z.of_nat (length fpg) - ho) 1024 ltac:(lia)).
    lia.
Qed.

(** Both sections of a file of at least six bytes, so of every file that
    holds the sentinel, come out as whole blocks: their lengths are
    multiples of 1024 and not zero. *)
Theorem sections_are_whole_blocks (fpg : list byte) :
  6 <= Z.of_nat (length fpg) ->
  Z.of_nat (length (header fpg)) mod 1024 = 0
  /\ Z.of_nat (length (prog fpg)) mod 1024 = 0
  /\ 1024 <= Z.of_nat (length (header fpg))
  /\ 1024 <= Z.of_nat (length (prog fpg)).
Proof.
  intros Hlen. set (ho := header_offset fpg).
  assert (Hho : 6 <= ho <= Z.of_nat (length fpg))
    by (destruct (header_offset_range fpg); lia).
  assert (Hh : Z.of_nat (length (header fpg)) = ho + (1024 - ho mod 1024)).
  { unfold header. fold ho. rewrite slice_head by lia.
    unfold Py.bytes_mul. rewrite length_app, length_take, repeat_length.
    pose proof (Z.mod_pos_bound ho 1024 ltac:(lia)). lia. }
  assert (Hp : Z.of_nat (length (prog fpg))
               = (Z.of_nat (length fpg) - ho)
                 + (1024 - (Z.of_nat (length fpg) - ho) mod 1024)).
  { unfold prog. fold ho. rewrite slice_tail by lia.
    unfold Py.bytes_mul. rewrite length_app, length_drop, repeat_length.
    pose proof (Z.mod_pos_bound (Z.of_nat (length fpg) - ho) 1024 ltac:(lia)).
    lia. }
  rewrite Hh, Hp. clear Hh Hp.
  pose proof (Z.mod_pos_bound ho 1024 ltac:(lia)).
  pose proof (Z.mod_pos_bound (Z.of_nat (length fpg) - ho) 1024 ltac:(lia)).
  repeat split; try lia; Z.div_mod_to_equations; lia.
Qed.

End SplitFacts.

Example sections_are_whole_blocks_witness :
  Z.of_nat (length (header hello_world)) mod 1024 = 0
  /\ Z.of_nat (length (prog hello_world)) mod 1024 = 0
  /\ 1024 <= Z.of_nat (length (header hello_world))
  /\ 1024 <= Z.of_nat (length (prog hello_world)).
Proof.
  apply (sections_are_whole_blocks hello_world). vm_compute. discriminate.
Defined.

(** ** Upload: outcomes and the template lock *)

Section UploadOutcomes.

Variable parse_fpg : string -> result fpg_header.
Variable zlib_decompress : list byte -> result (list byte).
Variable md5_hexdigest : list byte -> string.

Local Abbreviation upload :=
  (upload_to_ram_and_program parse_fpg zlib_decompress md5_hexdigest).
Local Abbreviation extract := (_extract_bitstream zlib_decompress md5_hexdigest).

(** A payload that carries the gzip signature goes to zlib together with
    its padding; the program returned is what zlib makes of it, the digest
    is still that of the file, and an error of zlib is the error of the
    extraction. *)
Theorem extract_hands_padded_payload_to_zlib (w : world) (filename : string)
  (h0 payload : list byte) :
  let hdr := h0 ++ sentinel in
  let fpg := hdr ++ payload in
  let H := Z.of_nat (length hdr) in
  let L := Z.of_nat (length payload) in
  let padded := payload ++ Py.bytes_mul pad_byte (1024 - L mod 1024) in
  files (snd w) !! filename = Some fpg ->
  absent_before (length h0) fpg sentinel ->
  Py.startswith payload gzip_magic = true ->
  extract filename w
  = match zlib_decompress padded with
    | Return out =>
        (Return (hdr ++ Py.bytes_mul pad_byte (1024 - H mod 1024), out,
                 md5_hexdigest fpg), w)
    | Raise e => (Raise e, w)
    end.
Proof.
  intros hdr fpg H L padded Hfile Hfirst Hgzip.
  destruct (sections_of_image h0 payload Hfirst) as (_ & Hhd & Hpg).
  fold hdr fpg H L in Hhd, Hpg. fold padded in Hpg.
  unfold _extract_bitstream. returns_by (read_file_found _ _ _ Hfile).
  rewrite Hhd, Hpg. unfold padded at 1.
  rewrite (startswith_app_l _ _ _ Hgzip). fold padded.
  unfold bind, lift. destruct (zlib_decompress padded); reflexivity.
Qed.

Lemma extract_frame (w : world) (filename : string) :
  snd (extract filename w) = w.
Proof.
  unfold _extract_bitstream, bind, read_file. destruct w as [self h].
  destruct (files h !! filename) as [fpg|]; [|reflexivity].
  destruct (Py.startswith (prog fpg) gzip_magic); [|reflexivity].
  unfold lift. destruct (zlib_decompress (prog fpg)); reflexivity.
Qed.

(** A failed extraction stops the upload before the programming device
    is opened. When the checks on the name and the template pass and
    [_extract_bitstream] raises (the file cannot be read, zlib refuses the
    payload), the upload raises the same exception; nothing is streamed,
    no template is adopted, and the session and the host are as they
    were. *)
Theorem upload_extraction_failure (self : LocalPcieTransport) (h : host)
  (filename : string) (hdr : fpg_header) (e : exn) :
  Py.str_endswith filename ".fpg" = true ->
  parse_fpg filename = Return hdr ->
  fpg_template self = None \/ fpg_template self = first_section_template hdr ->
  fst (extract filename (self, h)) = Raise e ->
  upload filename (self, h) = (Raise e, (self, h)).
Proof.
  intros Hext Hparse Hcheck Hfail. unfold upload_to_ram_and_program.
  rewrite Hext, bind_assert_true.
  returns_by (parse_template_meta_returns parse_fpg (self, h) _ _ Hparse).
  rewrite bind_gets. cbn [fst].
  pose proof (extract_frame (self, h) filename) as Hframe.
  destruct (extract filename (self, h)) as [r w1] eqn:Hex.
  cbn [fst snd] in Hfail, Hframe. subst r w1.
  assert (Hgo : forall (c : M unit) (k : list byte * list byte * string -> M bool),
             c (self, h) = (Return tt, (self, h)) ->
             bind c (fun _ => bind (extract filename) k) (self, h)
             = (Raise e, (self, h))).
  { intros c k Hc. returns_by Hc. unfold bind. now rewrite Hex. }
  destruct (fpg_template self) as [T|] eqn:HT.
  - destruct Hcheck as [Hc|Hc]; [discriminate|]. rewrite Hc.
    rewrite (proj2 (option_string_eqb_eq _ _) eq_refl). cbn [negb].
    apply Hgo. reflexivity.
  - apply Hgo. reflexivity.
Qed.

(** The lock at work over two uploads: once a first image has given a
    session without a template its template [T], an image that declares
    anything else is refused, and the session and the host stay as the
    first upload left them. *)
Theorem second_upload_is_locked (self : LocalPcieTransport) (h : host)
  (first second T : string) (hdr1 hdr2 : fpg_header)
  (header bitstream : list byte) (md5 : string) :
  Py.str_endswith first ".fpg" = true ->
  Py.str_endswith second ".fpg" = true ->
  fpg_template self = None ->
  parse_fpg first = Return hdr1 -> first_section_template hdr1 = Some T ->
  extract first (self, h) = (Return (header, bitstream, md5), (self, h)) ->
  parse_fpg second = Return hdr2 -> first_section_template hdr2 <> Some T ->
  exists w1,
    upload first (self, h) = (Return true, w1)
    /\ upload second w1
       = (Raise (RuntimeError
                   (TemplateMismatch (Some T) (first_section_template hdr2))), w1)
    /\ fpg_template (fst w1) = Some T
    /\ streamed (snd w1) = streamed h ++ [(_axid_dev self, bitstream)].
Proof.
  intros Hext1 Hext2 HT Hparse1 Htag1 Hextract Hparse2 Htag2.
  exists (with_template self (Some T), after_streaming h (_axid_dev self) bitstream).
  split; [|split; [|split]].
  - rewrite (upload_streams parse_fpg zlib_decompress md5_hexdigest
               self h first hdr1 header bitstream md5) by auto.
    rewrite Htag1. unfold adopting. now rewrite HT.
  - now apply upload_refuses.
  - reflexivity.
  - reflexivity.
Qed.

End UploadOutcomes.

(** A stand-in for zlib that answers with the first three bytes it is given. *)
Example extract_hands_padded_payload_to_zlib_witness :
  let payload := gzip_magic ++ [x00] in
  let w := (card0, image_host (([] ++ sentinel) ++ payload)) in
  _extract_bitstream (fun b => Return (take 3 b)) no_digest "image.fpg" w
  = (Return (([] ++ sentinel) ++ Py.bytes_mul pad_byte 1017,
             gzip_magic, EmptyString), w).
Proof.
  apply (extract_hands_padded_payload_to_zlib (fun b => Return (take 3 b)) no_digest
           (card0, image_host (([] ++ sentinel) ++ gzip_magic ++ [x00]))
           "image.fpg" [] (gzip_magic ++ [x00])).
  - reflexivity.
  - intros i Hi. simpl in Hi. lia.
  - reflexivity.
Defined.

(** An image file that is not there. *)
Example upload_extraction_failure_witness :
  upload_to_ram_and_program (tagged_parser "au50") zlib_rejects no_digest
    "image.fpg" (card0, quiet_host)
  = (Raise (OSError "No such file or directory"), (card0, quiet_host)).
Proof.
  apply (upload_extraction_failure (tagged_parser "au50") zlib_rejects no_digest
           card0 quiet_host "image.fpg"
           [("77777"%string, [("pr_template"%string, "au50"%string)])]);
    try reflexivity.
  now left.
Defined.

(** Two images on one host: [a.fpg] templated by [au50], [b.fpg] by
    [vcu118]. *)
Example second_upload_is_locked_witness :
  exists w1,
    upload_to_ram_and_program two_image_parser
      zlib_rejects no_digest "a.fpg"
      (card0, {| files := {[ "a.fpg"%string := small_image ]}; streamed := [] |})
    = (Return true, w1)
    /\ upload_to_ram_and_program two_image_parser
         zlib_rejects no_digest "b.fpg" w1
       = (Raise (RuntimeError (TemplateMismatch (Some "au50"%string)
                                 (Some "vcu118"%string))), w1)
    /\ fpg_template (fst w1) = Some "au50"%string
    /\ streamed (snd w1)
       = [] ++ [("/dev/xdma0_h2c_1"%string,
                 [x01; x02; x03; x04] ++ Py.bytes_mul pad_byte 1020)].
Proof.
  apply (second_upload_is_locked two_image_parser zlib_rejects no_digest card0
           {| files := {[ "a.fpg"%string := small_image ]}; streamed := [] |}
           "a.fpg" "b.fpg" "au50"
           [("77777"%string, [("pr_template"%string, "au50"%string)])]
           [("77777"%string, [("pr_template"%string, "vcu118"%string)])]
           (([x23; x21] ++ sentinel) ++ Py.bytes_mul pad_byte 1015)
           _ EmptyString);
    try reflexivity.
  discriminate.
Defined.

(** ** DeviceResolver: what a resolution can return *)

Section ResolverOutcomes.

Variable xdma_dev_matches : list (string * Z).

Lemma resolve_bare_known (tgt : target) (d : Dict.t Z) (k : Z) :
  resolve_bare tgt d = Return k -> in_values k d = true.
Proof.
  unfold resolve_bare. destruct (int_of_target tgt) as [k'|]; [|discriminate].
  destruct (in_values k' d) eqn:E; [|discriminate]. now intros [= <-].
Qed.

Lemma resolve_xdma_known (s : string) (d : Dict.t Z) (k : Z) :
  resolve_xdma s d = Return k -> in_values k d = true.
Proof.
  unfold resolve_xdma. destruct (Py.str_startswith s "xdma").
  - destruct (int_of_target (TargetStr (Py.str_from 4 s))) as [k'|]; [|discriminate].
    destruct (in_values k' d) eqn:E.
    + now intros [= <-].
    + apply resolve_bare_known.
  - apply resolve_bare_known.
Qed.

Lemma resolved_is_known
  (pcie_xdma_map : option (Dict.t Z)) (tgt : target) (k : Z) :
  getXdmaIdFromTarget xdma_dev_matches tgt pcie_xdma_map = Return k ->
  in_values k (pcie_xdma_dict xdma_dev_matches pcie_xdma_map) = true.
Proof.
  unfold getXdmaIdFromTarget.
  set (d := pcie_xdma_dict xdma_dev_matches pcie_xdma_map).
  destruct tgt as [s|k0]; [|apply resolve_bare_known].
  destruct (Py.str_startswith s "pcie"); [|apply resolve_xdma_known].
  destruct (Dict.get d (Py.str_from 4 s)) as [k0|] eqn:E; [|apply resolve_xdma_known].
  intros [= <-]. exact (get_in_values _ _ _ E).
Qed.

(** Resolution never makes up an instance: whatever the target, an id
    that [getXdmaIdFromTarget] returns is one of the values of the mapping
    it consulted, and the target is that id's PCI key after ["pcie"], or
    a literal of that id, after ["xdma"] or on its own. *)
Theorem resolve_returns_known_id
  (pcie_xdma_map : option (Dict.t Z)) (tgt : target) (k : Z) :
  let d := pcie_xdma_dict xdma_dev_matches pcie_xdma_map in
  getXdmaIdFromTarget xdma_dev_matches tgt pcie_xdma_map = Return k ->
  in_values k d = true
  /\ ((exists s, tgt = TargetStr s /\ Py.str_startswith s "pcie" = true
                 /\ Dict.get d (Py.str_from 4 s) = Some k)
      \/ (exists s, tgt = TargetStr s /\ Py.str_startswith s "xdma" = true
                    /\ Py.int_of_str (Py.str_from 4 s) = Some k)
      \/ int_of_target tgt = Return k).
Proof.
  intros d Hret. split; [exact (resolved_is_known _ _ _ Hret)|].
  revert Hret. unfold getXdmaIdFromTarget. fold d.
  assert (Hbare : forall t, resolve_bare t d = Return k -> int_of_target t = Return k).
  { intros t. unfold resolve_bare.
    destruct (int_of_target t) as [k'|]; [|discriminate].
    destruct (in_values k' d); [|discriminate]. now intros [= <-]. }
  assert (Hxdma : forall s, resolve_xdma s d = Return k ->
            (Py.str_startswith s "xdma" = true
             /\ Py.int_of_str (Py.str_from 4 s) = Some k)
            \/ int_of_target (TargetStr s) = Return k).
  { intros s. unfold resolve_xdma.
    destruct (Py.str_startswith s "xdma"); [|right; now apply Hbare].
    cbn [int_of_target].
    destruct (Py.int_of_str (Py.str_from 4 s)) as [k'|] eqn:E; [|discriminate].
    destruct (in_values k' d).
    - intros [= <-]. now left.
    - right. now apply (Hbare (TargetStr s)). }
  destruct tgt as [s|k0]; [|intros H; right; right; now apply Hbare].
  assert (Hx : resolve_xdma s d = Return k ->
               (exists s0, TargetStr s = TargetStr s0
                           /\ Py.str_startswith s0 "pcie" = true
                           /\ Dict.get d (Py.str_from 4 s0) = Some k)
               \/ (exists s0, TargetStr s = TargetStr s0
                              /\ Py.str_startswith s0 "xdma" = true
                              /\ Py.int_of_str (Py.str_from 4 s0) = Some k)
               \/ int_of_target (TargetStr s) = Return k).
  { intros H. destruct (Hxdma s H) as [[H1 H2]|H1].
    - right; left. now exists s.
    - right; right. exact H1. }
  destruct (Py.str_startswith s "pcie") eqn:Ep; [|exact Hx].
  destruct (Dict.get d (Py.str_from 4 s)) as [k0|] eqn:E; [|exact Hx].
  intros [= <-]. left. now exists s.
Qed.

Lemma numeral_has_no_prefix (k : Z) :
  Py.str_startswith (Py.str_of_int k) "pcie" = false
  /\ Py.str_startswith (Py.str_of_int k) "xdma" = false.
Proof.
  unfold Py.str_of_int. destruct (Z.to_int k) as [d|d]; destruct d; split; reflexivity.
Qed.

(** The third form of a target, the bare instance id: an id [K] that is
    among the mapping's values resolves to itself, given as the integer
    or as its decimal numeral. *)
Theorem resolve_direct_id (pcie_xdma_map : option (Dict.t Z)) (K : Z) :
  in_values K (pcie_xdma_dict xdma_dev_matches pcie_xdma_map) = true ->
  getXdmaIdFromTarget xdma_dev_matches (TargetInt K) pcie_xdma_map = Return K
  /\ getXdmaIdFromTarget xdma_dev_matches (TargetStr (Py.str_of_int K))
       pcie_xdma_map = Return K.
Proof.
  intros HK. unfold getXdmaIdFromTarget.
  set (d := pcie_xdma_dict xdma_dev_matches pcie_xdma_map) in *.
  destruct (numeral_has_no_prefix K) as [Hp Hx].
  split.
  - unfold resolve_bare. simpl. now rewrite HK.
  - rewrite Hp. unfold resolve_xdma. rewrite Hx. unfold resolve_bare, int_of_target.
    now rewrite int_of_str_of_int, HK.
Qed.

(** What the enumeration holds for any PCI id: the instance id of the last
    scanned path with that id, and nothing for an id that no path had. *)
Theorem enumeration_lookup (pci_id : string) :
  Dict.get (get_pcie_xdma_map xdma_dev_matches) pci_id
  = Dict.get (rev xdma_dev_matches) pci_id.
Proof.
  unfold get_pcie_xdma_map. rewrite scan_lookup_from.
  now destruct (Dict.get (rev xdma_dev_matches) pci_id).
Qed.

Lemma keys_set {V} (d : Dict.t V) (k : string) (v : V) :
  Dict.keys (Dict.set d k v)
  = if bool_decide (k ∈ Dict.keys d) then Dict.keys d else Dict.keys d ++ [k].
Proof.
  unfold Dict.keys. induction d as [|[k' v'] d IH]; simpl; [reflexivity|].
  destruct (String.eqb_spec k' k) as [->|Hne]; simpl.
  - rewrite bool_decide_eq_true_2; [reflexivity | apply elem_of_cons; now left].
  - rewrite IH. destruct (bool_decide (k ∈ map fst d)) eqn:E.
    + rewrite bool_decide_eq_true_2; [reflexivity|].
      apply bool_decide_eq_true_1 in E. apply elem_of_cons. now right.
    + rewrite bool_decide_eq_false_2; [reflexivity|].
      apply bool_decide_eq_false_1 in E. intros [?|?]%elem_of_cons; congruence.
Qed.

Lemma scan_keys_from (ms : list (string * Z)) (acc : Dict.t Z) :
  NoDup (Dict.keys acc) ->
  let d := fold_left (fun ret '(pci_id, xdma_id) => Dict.set ret pci_id xdma_id)
                     ms acc in
  NoDup (Dict.keys d)
  /\ forall p, p ∈ Dict.keys d <-> p ∈ Dict.keys acc \/ p ∈ map fst ms.
Proof.
  revert acc. induction ms as [|[k v] ms IH]; intros acc Hacc; cbn [fold_left].
  - split; [exact Hacc|]. intros p. simpl. rewrite elem_of_nil. tauto.
  - assert (Hset : NoDup (Dict.keys (Dict.set acc k v))
                   /\ forall p, p ∈ Dict.keys (Dict.set acc k v)
                                <-> p ∈ Dict.keys acc \/ p = k).
    { rewrite keys_set. destruct (bool_decide (k ∈ Dict.keys acc)) eqn:E.
      - apply bool_decide_eq_true_1 in E. split; [exact Hacc|].
        intros p. split; [tauto|]. intros [?| ->]; assumption.
      - apply bool_decide_eq_false_1 in E. split.
        + apply NoDup_app. split; [exact Hacc|]. split.
          * intros x Hx ->%list_elem_of_singleton. contradiction.
          * apply NoDup_singleton.
        + intros p. rewrite elem_of_app, list_elem_of_singleton. tauto. }
    destruct Hset as [Hnd Hin]. destruct (IH _ Hnd) as [IH1 IH2].
    split; [exact IH1|]. intros p. rewrite IH2, Hin. simpl.
    rewrite elem_of_cons. tauto.
Qed.

(** The enumeration has each PCI id once, however often the scan met it,
    and it has exactly the ids the scan met. *)
Theorem enumeration_keys_unique :
  NoDup (Dict.keys (get_pcie_xdma_map xdma_dev_matches))
  /\ forall p, p ∈ Dict.keys (get_pcie_xdma_map xdma_dev_matches)
               <-> p ∈ map fst xdma_dev_matches.
Proof.
  destruct (scan_keys_from xdma_dev_matches [] (NoDup_nil_2 : NoDup (Dict.keys (V:=Z) [])))
    as [Hnd Hin].
  split; [exact Hnd|]. intros p. rewrite (Hin p). simpl. rewrite elem_of_nil. tauto.
Qed.

End ResolverOutcomes.

(** Bus [01] scanned twice, as instance 0 and then as instance 3, and bus
    [5e] after it. *)
Example enumeration_last_wins_witness :
  Dict.get (get_pcie_xdma_map
              ([("01"%string, 0)] ++ ("01"%string, 3) :: [("5e"%string, 1)]))
           "01"
  = Some 3.
Proof.
  apply (enumeration_last_wins [("01"%string, 0)] [("5e"%string, 1)] "01" 3).
  apply not_elem_of_cons. split; [discriminate | apply not_elem_of_nil].
Defined.

Example resolve_returns_known_id_witness :
  let d := pcie_xdma_dict [("01"%string, 0)] None in
  in_values 0 d = true
  /\ ((exists s, TargetStr "xdma0" = TargetStr s
                 /\ Py.str_startswith s "pcie" = true
                 /\ Dict.get d (Py.str_from 4 s) = Some 0)
      \/ (exists s, TargetStr "xdma0" = TargetStr s
                    /\ Py.str_startswith s "xdma" = true
                    /\ Py.int_of_str (Py.str_from 4 s) = Some 0)
      \/ int_of_target (TargetStr "xdma0") = Return 0).
Proof.
  exact (resolve_returns_known_id [("01"%string, 0)] None (TargetStr "xdma0") 0
           eq_refl).
Defined.

Example resolve_direct_id_witness :
  getXdmaIdFromTarget [] (TargetInt 3) (Some [("5e"%string, 3)]) = Return 3
  /\ getXdmaIdFromTarget [] (TargetStr (Py.str_of_int 3)) (Some [("5e"%string, 3)])
     = Return 3.
Proof.
  apply (resolve_direct_id [] (Some [("5e"%string, 3)]) 3). reflexivity.
Defined.

(** ** DeviceResolver: what the scan takes from a path *)

Section ScanPattern.

Lemma lit_app {R} (p s : string) (k : string -> option R) :
  Re.lit p (p +:+ s) k = k s.
Proof. induction p; simpl; [reflexivity | now rewrite Ascii.eqb_refl]. Qed.

Lemma digits_plus_stops {R} (rest : string) (k : string -> string -> option R) :
  (forall c s, rest = String c s -> Py.is_digit c = false) ->
  Re.digits_plus rest k = None.
Proof.
  intros H. destruct rest; simpl; [reflexivity|]. now rewrite (H _ _ eq_refl).
Qed.

Lemma uint_nil_or_not (u : Decimal.uint) : u = Decimal.Nil \/ u <> Decimal.Nil.
Proof. destruct u; [left; reflexivity | right; discriminate ..]. Qed.

(** A run of digits followed by something else: [\d+] offers the whole
    run first. *)
Lemma digits_plus_run {R} (u : Decimal.uint) (rest : string)
  (k : string -> string -> option R) (r : R) :
  u <> Decimal.Nil ->
  (forall c s, rest = String c s -> Py.is_digit c = false) ->
  k (digits u) rest = Some r ->
  Re.digits_plus (digits u +:+ rest) k = Some r.
Proof.
  intros Hu Hrest. revert k.
  induction u as [|u IH|u IH|u IH|u IH|u IH|u IH|u IH|u IH|u IH|u IH];
    intros k Hk; [congruence | ..];
    (unfold digits in *; simpl;
     destruct (uint_nil_or_not u) as [->|Hne];
     [ simpl; rewrite (digits_plus_stops _ _ Hrest); exact Hk
     | now rewrite (IH Hne _ Hk) ]).
Qed.

(** [.*?] before a literal that starts with [d], over text without [d]
    and without a newline: the lazy search passes over all of it. *)
Lemma any_lazy_until {R} (d : ascii) (a rest : string)
  (k : string -> string -> option R) (r : R) :
  lacks d a = true -> lacks "010" a = true ->
  (forall cap c s, Ascii.eqb d c = false -> k cap (String c s) = None) ->
  k a rest = Some r ->
  Re.any_lazy (a +:+ rest) k = Some r.
Proof.
  revert k. induction a as [|c a IH]; intros k Hd Hnl Hfail Hk.
  - simpl. destruct rest; simpl; now rewrite Hk.
  - cbn [lacks] in Hd, Hnl. apply andb_prop in Hd as [Hd1 Hd2].
    apply andb_prop in Hnl as [Hn1 Hn2].
    apply negb_true_iff in Hd1, Hn1.
    change (String c a +:+ rest) with (String c (a +:+ rest)).
    cbn [Re.any_lazy]. rewrite (Hfail _ _ _ Hd1).
    rewrite Ascii.eqb_sym, Hn1.
    apply IH; auto.
Qed.

Lemma int_of_digits (n : Decimal.uint) :
  n <> Decimal.Nil -> Py.int_of_str (digits n) = Some (Z.of_uint n).
Proof.
  intros Hn. unfold Py.int_of_str, digits. rewrite strip_numeral by assumption.
  destruct n; [congruence | exact (digits_value_numeral _ Hn) ..].
Qed.

(** The key that the enumeration stores for a device is the text between
    the first and the second colon of its directory name, the bus number:
    for [0000:01:00.0] it is [01]. The value is the number after [xdma] in
    the name of the node. The directory name starts with digits, its bus
    part has no colon, and what follows has no slash (it is one directory);
    no part has a newline. *)
Theorem scan_key_is_bus_number (u n : Decimal.uint) (bus rest : string) :
  u <> Decimal.Nil -> n <> Decimal.Nil ->
  lacks ":" bus = true -> lacks "010" bus = true ->
  lacks "/" rest = true -> lacks "010" rest = true ->
  path_groups (sysfs_path (digits u) bus rest (digits n))
  = Some (bus, Z.of_uint n).
Proof.
  intros Hu Hn Hb1 Hb2 Hr1 Hr2.
  assert (Hre : pcie_xdma_regex (sysfs_path (digits u) bus rest (digits n))
                = Some (bus, digits n)).
  { unfold pcie_xdma_regex, sysfs_path. rewrite lit_app.
    apply digits_plus_run; [exact Hu | now intros c s [= <- _] |].
    rewrite (lit_app ":").
    apply (any_lazy_until ":"); [exact Hb1 | exact Hb2 | |].
    { intros cap c s Hc. cbn [Re.lit]. now rewrite Hc. }
    rewrite (lit_app ":").
    apply (any_lazy_until "/"); [exact Hr1 | exact Hr2 | |].
    { intros cap c s Hc. cbn [Re.lit]. now rewrite Hc. }
    rewrite (lit_app "/xdma/xdma").
    apply digits_plus_run; [exact Hn | now intros c s [= <- _] |].
    reflexivity. }
  unfold path_groups. rewrite Hre, (int_of_digits n Hn). reflexivity.
Qed.

End ScanPattern.

(** [/sys/bus/pci/drivers/xdma/0000:01:00.0/xdma/xdma0_user] *)
Example scan_key_is_bus_number_witness :
  path_groups "/sys/bus/pci/drivers/xdma/0000:01:00.0/xdma/xdma0_user"
  = Some ("01"%string, 0).
Proof.
  apply (scan_key_is_bus_number
           (Decimal.D0 (Decimal.D0 (Decimal.D0 (Decimal.D0 Decimal.Nil))))
           (Decimal.D0 Decimal.Nil) "01" "00.0");
    try discriminate; reflexivity.
Defined.

(** ** Transport: construction *)

Section ConstructionFacts.

Variable xdma_dev_matches : list (string * Z).
Variable parse_fpg : string -> result fpg_header.
Variable Transport__init__ : kwargs -> result inherited.
Variable open_window : string -> result mmap.

Local Abbreviation init :=
  (__init__ xdma_dev_matches parse_fpg Transport__init__ open_window).

(** What a constructed session is bound to. When [__init__] returns, a
    [parent_fpga] was given, the instance id is one that the host's scan
    found, the two device paths are those of that instance, the window is
    the one opened over the control path, and the template is [None]
    without an [fpgfile] and the first section's template of the parsed
    [fpgfile] with one. *)
Theorem init_binds_resolved_instance (kw : kwargs) (h : host)
  (self : LocalPcieTransport) :
  init kw h = Return self ->
  kw_parent_fpga kw = true
  /\ in_values (instance_id self) (get_pcie_xdma_map xdma_dev_matches) = true
  /\ _axil_dev self = axil_dev_path (instance_id self)
  /\ _axid_dev self = axid_dev_path (instance_id self)
  /\ open_window (_axil_dev self) = Return (axil_mm self)
  /\ match kw_fpgfile kw with
     | None => fpg_template self = None
     | Some fpgfile_path =>
         exists hdr, parse_fpg fpgfile_path = Return hdr
                     /\ fpg_template self = first_section_template hdr
     end.
Proof.
  unfold __init__. destruct (Transport__init__ kw) as [base|]; [|discriminate].
  destruct (kw_parent_fpga kw); [|discriminate].
  destruct (kw_parent_has_logger kw); [|discriminate].
  destruct (getXdmaIdFromTarget xdma_dev_matches
              (default (TargetInt 0) (kw_host kw)) None) as [id|] eqn:Hid;
    [|discriminate].
  apply resolved_is_known in Hid. cbn [pcie_xdma_dict] in Hid.
  destruct (inh_has_host base); [|discriminate].
  destruct (open_window (axil_dev_path id)) as [mm|] eqn:Hmm; [|discriminate].
  destruct (kw_fpgfile kw) as [p|].
  - destruct (parse_fpg p) as [hdr|e] eqn:Hparse.
    + rewrite (parse_template_meta_returns parse_fpg _ _ _ Hparse). cbn [fst].
      intros [= <-]. cbn. repeat split; try assumption. now exists hdr.
    + rewrite (parse_template_meta_raises parse_fpg _ _ _ Hparse). discriminate.
  - intros [= <-]. cbn. repeat split; assumption.
Qed.

(** Without a [host] argument the session goes to instance 0. Let the
    constructor of the base class return and let the parent have a
    [logger]. If the scan found no instance 0,
    construction fails with the descriptive error for the target [0]. If it
    found one, the base class has set a [host] and the control node opens,
    the session is constructed on [/dev/xdma0_user]. *)
Theorem init_default_host (kw : kwargs) (h : host) (base : inherited) :
  Transport__init__ kw = Return base ->
  kw_parent_fpga kw = true -> kw_parent_has_logger kw = true ->
  kw_host kw = None -> kw_fpgfile kw = None ->
  let d := get_pcie_xdma_map xdma_dev_matches in
  (in_values 0 d = true -> inh_has_host base = true ->
   forall mm, open_window "/dev/xdma0_user" = Return mm ->
     init kw h
     = Return {| instance_id := 0;
                 _axil_dev := "/dev/xdma0_user";
                 _axid_dev := "/dev/xdma0_h2c_1";
                 axil_mm := mm;
                 fpg_template := None;
                 memory_devices := inh_memory_devices base |})
  /\ (in_values 0 d = false ->
      init kw h
      = Raise (RuntimeError (TargetNotRecognised (TargetInt 0)
                               (valid_identifiers d)))).
Proof.
  intros Hbase Hparent Hlogger Hhost Hfile d. unfold __init__.
  rewrite Hbase, Hparent, Hlogger, Hhost, Hfile. cbn [default].
  unfold getXdmaIdFromTarget, resolve_bare. cbn [pcie_xdma_dict int_of_target].
  fold d. split.
  - intros H0 Hh mm Hmm. rewrite H0, Hh.
    change (axil_dev_path 0) with "/dev/xdma0_user"%string.
    now rewrite Hmm.
  - intros H0. now rewrite H0.
Qed.

(** A session constructed with an [fpgfile] is locked from the start: an
    upload of an image whose template differs from the file's is refused
    and leaves the session and the host as they were. *)
Theorem init_with_image_locks
  (zlib_decompress : list byte -> result (list byte))
  (md5_hexdigest : list byte -> string)
  (kw : kwargs) (h h' : host) (self : LocalPcieTransport)
  (fpgfile_path filename T : string) (hdr0 hdr : fpg_header) :
  kw_fpgfile kw = Some fpgfile_path ->
  parse_fpg fpgfile_path = Return hdr0 ->
  first_section_template hdr0 = Some T ->
  init kw h = Return self ->
  Py.str_endswith filename ".fpg" = true ->
  parse_fpg filename = Return hdr ->
  first_section_template hdr <> Some T ->
  upload_to_ram_and_program parse_fpg zlib_decompress md5_hexdigest filename
    (self, h')
  = (Raise (RuntimeError (TemplateMismatch (Some T) (first_section_template hdr))),
     (self, h')).
Proof.
  intros Hfile Hparse0 HT Hinit Hext Hparse Hdiff.
  apply upload_refuses; try assumption.
  unfold __init__ in Hinit. rewrite Hfile in Hinit.
  destruct (Transport__init__ kw) as [base|]; [|discriminate].
  destruct (kw_parent_fpga kw); [|discriminate].
  destruct (kw_parent_has_logger kw); [|discriminate].
  destruct (getXdmaIdFromTarget _ _ _); [|discriminate].
  destruct (inh_has_host base); [|discriminate].
  destruct (open_window _); [|discriminate].
  rewrite (parse_template_meta_returns parse_fpg _ _ _ Hparse0) in Hinit.
  cbn [fst] in Hinit. injection Hinit as <-. exact HT.
Qed.

Lemma length_append (a s : string) :
  String.length (a +:+ s) = (String.length a + String.length s)%nat.
Proof. induction a; simpl; [reflexivity | now rewrite IHa]. Qed.

Lemma append_inv_tail (a b s : string) : a +:+ s = b +:+ s -> a = b.
Proof.
  intros H.
  assert (Hlen : String.length a = String.length b).
  { apply (f_equal String.length) in H.
    rewrite !length_append in H. lia. }
  revert b H Hlen. induction a as [|c a IH]; intros [|c' b] H Hlen;
    try discriminate; [reflexivity|].
  injection H as -> H. f_equal. apply IH; [exact H | now injection Hlen].
Qed.

Lemma str_of_int_inj (i j : Z) : Py.str_of_int i = Py.str_of_int j -> i = j.
Proof.
  intros H. pose proof (int_of_str_of_int i) as Hi.
  rewrite H, int_of_str_of_int in Hi. now injection Hi.
Qed.

(** Sessions on different instances use different device nodes: the
    control path and the streaming path each determine the instance id. *)
Theorem device_paths_injective (i j : Z) :
  (axil_dev_path i = axil_dev_path j -> i = j)
  /\ (axid_dev_path i = axid_dev_path j -> i = j).
Proof.
  unfold axil_dev_path, axid_dev_path. split; intros H.
  - apply str_of_int_inj, (append_inv_tail _ _ "_user").
    now injection H.
  - apply str_of_int_inj, (append_inv_tail _ _ "_h2c_1").
    now injection H.
Qed.

End ConstructionFacts.

(** Card 0 on bus [01], constructed with no [fpgfile]. *)
Example init_binds_resolved_instance_witness :
  kw_parent_fpga (with_parent (Some (TargetStr "pcie01")) None) = true
  /\ in_values (instance_id card0) (get_pcie_xdma_map [("01"%string, 0)]) = true
  /\ _axil_dev card0 = axil_dev_path (instance_id card0)
  /\ _axid_dev card0 = axid_dev_path (instance_id card0)
  /\ opens_blank (_axil_dev card0) = Return (axil_mm card0)
  /\ fpg_template card0 = None.
Proof.
  apply (init_binds_resolved_instance [("01"%string, 0)] untagged_parser
           base_of_card0 opens_blank
           (with_parent (Some (TargetStr "pcie01")) None) quiet_host card0).
  reflexivity.
Defined.

Example init_default_host_witness :
  __init__ [("01"%string, 0)] untagged_parser base_of_card0 opens_blank
    (with_parent None None) quiet_host
  = Return card0.
Proof.
  apply (proj1 (init_default_host [("01"%string, 0)] untagged_parser
                  base_of_card0 opens_blank
                  (with_parent None None) quiet_host _
                  eq_refl eq_refl eq_refl eq_refl eq_refl));
    reflexivity.
Defined.

(** Constructed with [a.fpg], then given [b.fpg]. *)
Example init_with_image_locks_witness :
  upload_to_ram_and_program two_image_parser zlib_rejects no_digest "b.fpg"
    (locked_card "au50", quiet_host)
  = (Raise (RuntimeError (TemplateMismatch (Some "au50"%string)
                            (Some "vcu118"%string))),
     (locked_card "au50", quiet_host)).
Proof.
  apply (init_with_image_locks [("01"%string, 0)] two_image_parser
           base_of_card0 opens_blank zlib_rejects no_digest
           (with_parent None (Some "a.fpg"%string)) quiet_host quiet_host
           (locked_card "au50") "a.fpg" "b.fpg" "au50"
           [("77777"%string, [("pr_template"%string, "au50"%string)])]
           [("77777"%string, [("pr_template"%string, "vcu118"%string)])]);
    try reflexivity.
  discriminate.
Defined.
